(** * Gemini-Chat-API: a shallow embedding of [gemini_client] and its properties

    The development follows the Python package file by file:
    - [Py]: the fragment of the Python data model the package relies on
      (strings as code point sequences, JSON-like values, exception classes,
      slicing, truthiness, [os.path] on POSIX);
    - [Enums]: [enums.py] ([Headers], [Model], [Model.from_name]);
    - [Utils]: [utils.py] ([load_cookies], [upload_file]);
    - [Images]: [images.py] ([Image.save], [GeneratedImage]);
    - [SessionEngine]: the turn orchestration of section 4.5 of the
      specification, whose implementation ([core.py]) is not part of the
      sources at hand. *)

From Stdlib Require Import ZArith String Ascii List Floats DecimalString Lia.
From stdpp Require Import base option list gmap strings.

Set Warnings "-register-all".
Set Default Proof Using "Type".

(* ===================================================================== *)
(** ** The Python fragment                                                *)
(* ===================================================================== *)

Module Py.

(** A Python [str] is a sequence of Unicode code points; [len], slicing and
    comparison work on code points, so this is what the model uses. *)
Abbreviation pystr := (list N).

(** String literals of the source, all of them ASCII. *)
Definition lit (s : string) : pystr :=
  map N_of_ascii (list_ascii_of_string s).
Arguments lit : simpl never.

(** What [json.load] can produce, which is also enough for the other
    dynamically typed values the package inspects. A [dict] is a finite map;
    JSON object keys are strings. *)
Inductive pyval :=
| PyNone
| PyBool (b : bool)
| PyInt (z : Z)
| PyFloat (f : float)
| PyStr (s : pystr)
| PyList (l : list pyval)
| PyDict (d : gmap pystr pyval).

(** [bool(v)], the test behind [not v] and [if v]. *)
Definition py_truthy (v : pyval) : bool :=
  match v with
  | PyNone => false
  | PyBool b => b
  | PyInt z => negb (z =? 0)%Z
  | PyFloat f => negb (PrimFloat.eqb f 0%float)
  | PyStr s => match s with [] => false | _ => true end
  | PyList l => match l with [] => false | _ => true end
  | PyDict d => match map_to_list d with [] => false | _ => true end
  end.

(** The exception classes that occur, all below [Exception]. Asynchronous
    signals that derive from [BaseException] only ([KeyboardInterrupt] and
    the like) are outside the model. *)
Inductive pyclass :=
| Exception
| OSError | FileNotFoundError | PermissionError
| ValueError | JSONDecodeError | UnicodeDecodeError | ValidationError
| StopIteration
| LookupError | KeyError
| TypeError | AttributeError
| NameError | UnboundLocalError
| RequestException | HTTPError | Timeout
| CurlError.

#[global] Instance pyclass_eq_dec : EqDecision pyclass.
Proof. solve_decision. Defined.

(** The direct base class. [IOError] is an alias of [OSError];
    [requests.exceptions.RequestException] derives from [IOError],
    [json.JSONDecodeError] and pydantic's [ValidationError] from
    [ValueError], [curl_cffi.CurlError] from [Exception]. *)
Definition base_class (c : pyclass) : option pyclass :=
  match c with
  | Exception => None
  | OSError => Some Exception
  | FileNotFoundError | PermissionError => Some OSError
  | ValueError => Some Exception
  | JSONDecodeError | UnicodeDecodeError | ValidationError => Some ValueError
  | StopIteration => Some Exception
  | LookupError => Some Exception
  | KeyError => Some LookupError
  | TypeError | AttributeError => Some Exception
  | NameError => Some Exception
  | UnboundLocalError => Some NameError
  | RequestException => Some OSError
  | HTTPError | Timeout => Some RequestException
  | CurlError => Some Exception
  end.

Fixpoint ancestors (depth : nat) (c : pyclass) : list pyclass :=
  c :: match depth with
       | O => []
       | S d => match base_class c with
                | Some b => ancestors d b
                | None => []
                end
       end.

(** [issubclass c d]; the hierarchy above is four levels deep. *)
Definition issubclass (c d : pyclass) : bool :=
  bool_decide (d ∈ ancestors 4 c).

(** A raised exception: its class, [str(e)] and, for an [HTTPError] of
    [requests], the status code of [e.response] ([None] when the exception
    carries no response). [Exn c s] is an exception without a response. *)
Record pyexn := ExnWith {
  exc_type : pyclass;
  exc_str : pystr;
  exc_response : option Z
}.

Abbreviation Exn c s := (ExnWith c s None).

(** The outcome of an expression that may raise. *)
Inductive result (A : Type) :=
| Ok (a : A)
| Raise (e : pyexn).
Arguments Ok {A} a.
Arguments Raise {A} e.

(** Sequencing: stdpp's [x ← r; k] runs [k] on the value of [r] and lets an
    exception of [r] propagate. *)
#[global] Instance result_ret : MRet result := fun A a => Ok a.
#[global] Instance result_bind : MBind result := fun A B k r =>
  match r with
  | Ok a => k a
  | Raise e => Raise e
  end.

(** [type(v).__name__]. *)
Definition type_name (v : pyval) : pystr :=
  match v with
  | PyNone => lit "NoneType"
  | PyBool _ => lit "bool"
  | PyInt _ => lit "int"
  | PyFloat _ => lit "float"
  | PyStr _ => lit "str"
  | PyList _ => lit "list"
  | PyDict _ => lit "dict"
  end.

(** [v[key]] for a string key. Only a [dict] can be indexed by a string; a
    missing key is a [KeyError] whose text is the [repr] of the key. The
    texts of the [TypeError]s are those of CPython 3.11. *)
Definition py_getitem (v : pyval) (key : pystr) : result pyval :=
  match v with
  | PyDict d =>
      match d !! key with
      | Some x => Ok x
      | None => Raise (Exn KeyError (lit "'" ++ key ++ lit "'"))
      end
  | PyList _ =>
      Raise (Exn TypeError (lit "list indices must be integers or slices, not str"))
  | PyStr _ =>
      Raise (Exn TypeError (lit "string indices must be integers, not 'str'"))
  | _ =>
      Raise (Exn TypeError
               (lit "'" ++ type_name v ++ lit "' object is not subscriptable"))
  end.

(** [iter(v)], as far as a [for] clause needs it: the items in order. A
    [dict] yields its keys and a [str] its characters, both as strings. *)
Definition py_iter (v : pyval) : result (list pyval) :=
  match v with
  | PyList l => Ok l
  | PyDict d => Ok (map (fun kv => PyStr kv.1) (map_to_list d))
  | PyStr s => Ok (map (fun c => PyStr [c]) s)
  | _ =>
      Raise (Exn TypeError (lit "'" ++ type_name v ++ lit "' object is not iterable"))
  end.

(** What a handler of the form
    [except HTTPError as e: console.log(f"... {e.response.status_code} {e}"); raise]
    ends with: the message is built before the [raise], and reading
    [status_code] off a missing response is an [AttributeError]. *)
Definition log_http_error (e : pyexn) : pyexn :=
  match exc_response e with
  | Some _ => e
  | None =>
      Exn AttributeError (lit "'NoneType' object has no attribute 'status_code'")
  end.

(** What a chain of handlers that log and re-raise, the first of them the
    [HTTPError] handler above, ends with for an exception [e]. *)
Definition reraised (e : pyexn) : pyexn :=
  if issubclass (exc_type e) HTTPError then log_http_error e else e.

(** [s[:k]] with Python's reading of a negative bound. *)
Definition slice_to {A} (l : list A) (k : Z) : list A :=
  if (0 <=? k)%Z then take (Z.to_nat k) l
  else take (Z.to_nat (Z.of_nat (length l) + k)) l.

(** [s[k:]] with Python's reading of a negative bound. *)
Definition slice_from {A} (l : list A) (k : Z) : list A :=
  if (0 <=? k)%Z then drop (Z.to_nat k) l
  else drop (Z.to_nat (Z.of_nat (length l) + k)) l.

(** [len(s)] as an integer. *)
Definition len {A} (l : list A) : Z := Z.of_nat (length l).

(** The position of the last occurrence of [c], as [str.rfind] counts it
    ([None] for Python's -1). *)
Fixpoint rfind (c : N) (s : pystr) : option nat :=
  match s with
  | [] => None
  | x :: rest =>
      match rfind c rest with
      | Some i => Some (S i)
      | None => if decide (x = c) then Some 0 else None
      end
  end.

(** ASCII upper-casing, the restriction of [str.upper] to ASCII text. *)
Definition ascii_upper (s : pystr) : pystr :=
  map (fun c => if ((97 <=? c) && (c <=? 122))%N then (c - 32)%N else c) s.

(** ASCII lower-casing, the restriction of [str.lower] to ASCII text. *)
Definition ascii_lower (s : pystr) : pystr :=
  map (fun c => if ((65 <=? c) && (c <=? 90))%N then (c + 32)%N else c) s.

End Py.
Import Py.


(* ===================================================================== *)
(** ** enums.py                                                           *)
(* ===================================================================== *)

(** [class Endpoint(Enum)]: the members and their [value]. *)
Module Endpoint.

Inductive t := INIT | GENERATE | ROTATE_COOKIES | UPLOAD.

Definition value (e : t) : pystr :=
  match e with
  | INIT => lit "https://gemini.google.com/app"
  | GENERATE =>
      lit "https://gemini.google.com/_/BardChatUi/data/assistant.lamda.BardFrontendService/StreamGenerate"
  | ROTATE_COOKIES => lit "https://accounts.google.com/RotateCookies"
  | UPLOAD => lit "https://content-push.googleapis.com/upload"
  end.

End Endpoint.

(** [class Headers(Enum)]: each member's [value] is a header dictionary. *)
Module Headers.

Inductive t := GEMINI | ROTATE_COOKIES | UPLOAD.

Definition value (h : t) : gmap pystr pystr :=
  match h with
  | GEMINI =>
      <[lit "Content-Type" := lit "application/x-www-form-urlencoded;charset=utf-8"]>
      (<[lit "Host" := lit "gemini.google.com"]>
      (<[lit "Origin" := lit "https://gemini.google.com"]>
      (<[lit "Referer" := lit "https://gemini.google.com/"]>
      (<[lit "X-Same-Domain" := lit "1"]> ∅))))
  | ROTATE_COOKIES => <[lit "Content-Type" := lit "application/json"]> ∅
  | UPLOAD => <[lit "Push-ID" := lit "feeds/mcudyrk2a4khkz"]> ∅
  end.

End Headers.

(** [class Model(Enum)]. The seven member values are pairwise different
    tuples, so no member is an alias of another and iterating over the class
    yields all seven in the order of definition. *)
Module Model.

Inductive t :=
| UNSPECIFIED
| G_2_0_FLASH
| G_2_0_FLASH_THINKING
| G_2_5_FLASH
| G_2_5_PRO
| G_2_0_EXP_ADVANCED
| G_2_5_EXP_ADVANCED.

#[global] Instance eq_dec : EqDecision t.
Proof. solve_decision. Defined.

(** [for model in cls]. *)
Definition members : list t :=
  [UNSPECIFIED; G_2_0_FLASH; G_2_0_FLASH_THINKING; G_2_5_FLASH; G_2_5_PRO;
   G_2_0_EXP_ADVANCED; G_2_5_EXP_ADVANCED].

(** The three attributes [__init__] sets from the member's tuple. *)
Definition model_name (m : t) : pystr :=
  match m with
  | UNSPECIFIED => lit "unspecified"
  | G_2_0_FLASH => lit "gemini-2.0-flash"
  | G_2_0_FLASH_THINKING => lit "gemini-2.0-flash-thinking"
  | G_2_5_FLASH => lit "gemini-2.5-flash"
  | G_2_5_PRO => lit "gemini-2.5-pro"
  | G_2_0_EXP_ADVANCED => lit "gemini-2.0-exp-advanced"
  | G_2_5_EXP_ADVANCED => lit "gemini-2.5-exp-advanced"
  end.

(** The header values are JSON texts; [dq] is their double quote. *)
Definition dq : pystr := [34%N].

Definition jspb (head tag : string) : gmap pystr pystr :=
  <[lit "x-goog-ext-525001261-jspb" :=
      lit head ++ lit ",null,null,null," ++ dq ++ lit tag ++ dq ++ lit "]"]> ∅.

Definition model_header (m : t) : gmap pystr pystr :=
  match m with
  | UNSPECIFIED => ∅
  | G_2_0_FLASH => jspb "[1" "f299729663a2343f"
  | G_2_0_FLASH_THINKING => jspb "[null" "7ca48d02d802f20a"
  | G_2_5_FLASH => jspb "[1" "35609594dbe934d8"
  | G_2_5_PRO => jspb "[1" "2525e3954d185b3c"
  | G_2_0_EXP_ADVANCED => jspb "[null" "b1e46a6037e6aa9f"
  | G_2_5_EXP_ADVANCED => jspb "[null" "203e6bb81620bcfe"
  end.

Definition advanced_only (m : t) : bool :=
  match m with
  | G_2_0_EXP_ADVANCED | G_2_5_EXP_ADVANCED => true
  | _ => false
  end.

(** [sep.join(parts)]. *)
Fixpoint join (sep : pystr) (parts : list pystr) : pystr :=
  match parts with
  | [] => []
  | [p] => p
  | p :: rest => p ++ sep ++ join sep rest
  end.

(** The loop of [from_name]: the first member, in iteration order, whose
    [model_name] equals [name]. *)
Fixpoint from_name_loop (name : pystr) (ms : list t) : option t :=
  match ms with
  | [] => None
  | model :: rest =>
      if decide (model_name model = name) then Some model
      else from_name_loop name rest
  end.

(** [Model.from_name]. *)
Definition from_name (name : pystr) : result t :=
  match from_name_loop name members with
  | Some model => Ok model
  | None =>
      Raise (Exn ValueError
               (lit "Unknown model name: " ++ name ++ lit ". Available models: "
                ++ join (lit ", ") (map model_name members)))
  end.

End Model.

(* ===================================================================== *)
(** ** Network and file-system actions                                    *)
(* ===================================================================== *)

(** What a function does to the outside world is recorded as a trace of
    actions, in order. Console output ([console.log]) only prints and is
    left out of the trace. *)
Module IO.

(** The arguments of [AsyncSession(...)]. *)
Record session := Session {
  s_cookies : option (gmap pystr pystr);
  s_proxies : option (gmap pystr pystr);
  s_impersonate : pystr;
  s_headers : option (gmap pystr pystr)
}.

Inductive event :=
| HttpPost (s : session) (url : pystr) (file : list N)
| HttpGet (s : session) (url : pystr)
| Mkdir (dir : pystr)
| WriteBytes (dir filename : pystr) (content : list N).

(** The part of a response the package reads. *)
Record response := Response {
  resp_text : pystr;
  resp_content : list N
}.

(** A computation: the actions performed and how it ended. *)
Record io (A : Type) := IO { trace : list event; outcome : result A }.
Arguments IO {A} trace outcome.
Arguments trace {A} _.
Arguments outcome {A} _.

#[global] Instance io_ret : MRet io := fun A a => IO [] (Ok a).
#[global] Instance io_bind : MBind io := fun A B k m =>
  match outcome m with
  | Ok a => IO (trace m ++ trace (k a)) (outcome (k a))
  | Raise e => IO (trace m) (Raise e)
  end.

(** An expression without outside effect. *)
Definition lift {A} (r : result A) : io A := IO [] r.

(** [raise e]. *)
Definition raise {A} (e : pyexn) : io A := IO [] (Raise e).

(** An action [ev] whose outcome the environment decides. *)
Definition perform {A} (ev : event) (r : result A) : io A := IO [ev] r.

(** [try: body / except: handler], where [handler] decides by the exception. *)
Definition try_except {A} (body : io A) (handler : pyexn -> io A) : io A :=
  match outcome body with
  | Ok a => body
  | Raise e => IO (trace body ++ trace (handler e)) (outcome (handler e))
  end.

(** The proxy argument: a URL or a per-scheme dictionary. *)
Inductive proxy_arg :=
| ProxyUrl (u : pystr)
| ProxyDict (d : gmap pystr pystr).

(** The [proxies_dict] both [upload_file] and [Image.save] build. *)
Definition proxies_dict (proxy : option proxy_arg) : option (gmap pystr pystr) :=
  match proxy with
  | Some (ProxyUrl u) => Some (<[lit "http" := u]> (<[lit "https" := u]> ∅))
  | Some (ProxyDict d) => Some d
  | None => None
  end.

End IO.
Import IO.

(* ===================================================================== *)
(** ** utils.py                                                           *)
(* ===================================================================== *)

Module Utils.

Section LoadCookies.

(** The environment: [str.upper], [open(path, 'r', encoding='utf-8')]
    (the file's text, or the exception [open] raises) and [json.load]
    on that text. *)
Variable str_upper : pystr -> pystr.
Variable fs_open : pystr -> result pystr.
Variable json_load : pystr -> result pyval.

(** The filter of the generator expression:
    [item['name'].upper() == target]. *)
Definition name_matches (target : pystr) (item : pyval) : result bool :=
  name ← py_getitem item (lit "name");
  match name with
  | PyStr s => Ok (bool_decide (str_upper s = target))
  | _ =>
      Raise (Exn AttributeError
               (lit "'" ++ type_name name ++ lit "' object has no attribute 'upper'"))
  end.

(** [next((item['value'] for item in items if ...), None)]: the generator
    is consumed up to its first match and no further. *)
Fixpoint next_value (target : pystr) (items : list pyval) : result pyval :=
  match items with
  | [] => Ok PyNone
  | item :: rest =>
      hit ← name_matches target item;
      if hit : bool then py_getitem item (lit "value")
      else next_value target rest
  end.

Definition first_value (target : pystr) (cookies : pyval) : result pyval :=
  items ← py_iter cookies;
  next_value target items.

Definition PSID : pystr := lit "__SECURE-1PSID".
Definition PSIDTS : pystr := lit "__SECURE-1PSIDTS".
Arguments PSID : simpl never.
Arguments PSIDTS : simpl never.

(** The body of the [try] block. *)
Definition load_cookies_try (cookie_path : pystr) : result (pyval * pyval) :=
  file ← fs_open cookie_path;
  cookies ← json_load file;
  session_auth1 ← first_value PSID cookies;
  session_auth2 ← first_value PSIDTS cookies;
  if negb (py_truthy session_auth1) || negb (py_truthy session_auth2)
  then Raise (Exn StopIteration
                (lit "Required cookies (__Secure-1PSID or __Secure-1PSIDTS) not found."))
  else Ok (session_auth1, session_auth2).

(** The [except] clauses, tried in order. *)
Definition load_cookies_except (cookie_path : pystr) (e : pyexn)
  : result (pyval * pyval) :=
  if issubclass (exc_type e) FileNotFoundError then
    Raise (Exn Exception (lit "Cookie file not found at path: " ++ cookie_path))
  else if issubclass (exc_type e) JSONDecodeError then
    Raise (Exn Exception (lit "Invalid JSON format in the cookie file."))
  else if issubclass (exc_type e) StopIteration then
    Raise (Exn Exception
             (exc_str e ++ lit " Check the cookie file format and content."))
  else if issubclass (exc_type e) Exception then
    Raise (Exn Exception
             (lit "An unexpected error occurred while loading cookies: " ++ exc_str e))
  else Raise e.

Definition load_cookies (cookie_path : pystr) : result (pyval * pyval) :=
  match load_cookies_try cookie_path with
  | Ok auth => Ok auth
  | Raise e => load_cookies_except cookie_path e
  end.

(** The vocabulary of the statements about [load_cookies]. A cookie list, as
    a browser exports it, is a list of objects that each have a string
    [name] and a [value] (and possibly more fields); [as_cookie] reads such
    an object as the pair of the two. *)
Definition as_cookie (item : pyval) : option (pystr * pyval) :=
  match item with
  | PyDict d =>
      match d !! lit "name", d !! lit "value" with
      | Some (PyStr n), Some v => Some (n, v)
      | _, _ => None
      end
  | _ => None
  end.

Definition cookie_list (items : list pyval) : option (list (pystr * pyval)) :=
  mapM as_cookie items.

(** An entry carries the name [target] when its name upper-cases to it. *)
Definition named (target : pystr) (c : pystr * pyval) : Prop :=
  str_upper c.1 = target.

(** [cs] has an entry named [target] with value [v]. *)
Definition contains_cookie (target : pystr) (v : pyval) (cs : list (pystr * pyval)) : Prop :=
  exists n, (n, v) ∈ cs /\ named target (n, v).

(** [v] is the value of the earliest entry of [cs] named [target]. *)
Definition earliest_cookie (target : pystr) (v : pyval) (cs : list (pystr * pyval)) : Prop :=
  exists before n after,
    cs = before ++ (n, v) :: after /\
    named target (n, v) /\
    forall c, c ∈ before -> ~ named target c.

(** [v] is what the lookup of [target] yields on [cs]: the value of the
    earliest entry named [target], or [None] when no entry has the name. *)
Definition looked_up (target : pystr) (v : pyval) (cs : list (pystr * pyval)) : Prop :=
  earliest_cookie target v cs \/
  (v = PyNone /\ forall c, c ∈ cs -> ~ named target c).

(** The message of every failure for want of a usable required cookie. *)
Definition required_cookies_error : pyexn :=
  Exn Exception
    (lit "Required cookies (__Secure-1PSID or __Secure-1PSIDTS) not found."
     ++ lit " Check the cookie file format and content.").

(** The value the generator stops at, on a list of cookies. *)
Fixpoint stop_value (target : pystr) (cs : list (pystr * pyval)) : option pyval :=
  match cs with
  | [] => None
  | (n, v) :: rest =>
      if decide (str_upper n = target) then Some v else stop_value target rest
  end.

(** The four shapes of the message [load_cookies] fails with. *)
Definition descriptive (cookie_path : pystr) (e : pyexn) : Prop :=
  exc_type e = Exception /\
  (exc_str e = lit "Cookie file not found at path: " ++ cookie_path \/
   exc_str e = lit "Invalid JSON format in the cookie file." \/
   (exists s, exc_str e = s ++ lit " Check the cookie file format and content.") \/
   (exists s, exc_str e = lit "An unexpected error occurred while loading cookies: " ++ s)).

(** What [load_cookies] makes of an exception of the lookups. *)
Definition unexpected (e : pyexn) : pyexn :=
  Exn Exception
    (lit "An unexpected error occurred while loading cookies: " ++ exc_str e).

(** The lookups raise [KeyError], [TypeError] or [AttributeError] only. *)
Definition lookup_error (e : pyexn) : Prop :=
  exc_type e = KeyError \/ exc_type e = TypeError \/ exc_type e = AttributeError.

End LoadCookies.

Section UploadFile.

(** The environment: [Path.is_file] (which answers [False] for a path that
    does not exist, and passes on what [stat] raises otherwise: a name that
    is too long, a directory that may not be searched), reading a file in
    binary mode, the POST of a session and [response.raise_for_status]. *)
Variable is_file : pystr -> result bool.
Variable read_bytes : pystr -> result (list N).
Variable http_post : session -> pystr -> list N -> result response.
Variable raise_for_status : response -> result unit.

(** The [file] argument: [bytes], or a path given as [str] or [Path]. *)
Inductive file_arg :=
| Bytes (b : list N)
| PathLike (p : pystr).

(** The [except] clauses of the upload. Each of them logs and re-raises;
    the message of the [HTTPError] clause reads the status code of the
    response of the exception. What no clause catches is passed on. *)
Definition on_upload_error {A} (e : pyexn) : result A :=
  if issubclass (exc_type e) HTTPError then Raise (log_http_error e)
  else if issubclass (exc_type e) RequestException
          || issubclass (exc_type e) CurlError then Raise e
  else Raise e.
Arguments on_upload_error : simpl never.

(** [upload_file]. *)
Definition upload_file (file : file_arg) (proxy : option proxy_arg)
    (impersonate : pystr) : io pystr :=
  file_content ← match file with
                 | PathLike p =>
                     found ← lift (is_file p);
                     if found : bool then lift (read_bytes p)
                     else raise (Exn FileNotFoundError
                                   (lit "File not found at path: " ++ p))
                 | Bytes b => mret b
                 end;
  let client := Session None (proxies_dict proxy) impersonate
                  (Some (Headers.value Headers.UPLOAD)) in
  let url := Endpoint.value Endpoint.UPLOAD in
  try_except
    (response ← perform (HttpPost client url file_content)
                  (http_post client url file_content);
     _ ← lift (raise_for_status response);
     mret (resp_text response))
    (fun e => lift (on_upload_error e)).

End UploadFile.

End Utils.

(* ===================================================================== *)
(** ** images.py                                                          *)
(* ===================================================================== *)

(** [os.path] as [posixpath]: the separator is the slash (47) and the
    extension separator the dot (46). *)
Module OsPath.

(** [str.rfind] as an integer, -1 when there is no occurrence. *)
Definition rfindZ (c : N) (s : pystr) : Z :=
  match rfind c s with
  | Some i => Z.of_nat i
  | None => (-1)%Z
  end.

(** [basename(p)]: [p[p.rfind('/') + 1:]]. *)
Definition basename (p : pystr) : pystr :=
  drop (Z.to_nat (rfindZ 47 p + 1)) p.

(** [splitext(p)]: the extension starts at the last dot, provided that dot
    follows the last slash and some character between them is not a dot. *)
Definition splitext (p : pystr) : pystr * pystr :=
  let sepIndex := rfindZ 47 p in
  let dotIndex := rfindZ 46 p in
  if (sepIndex <? dotIndex)%Z then
    let leading := take (Z.to_nat (dotIndex - (sepIndex + 1)))
                        (drop (Z.to_nat (sepIndex + 1)) p) in
    if forallb (fun c => (c =? 46)%N) leading then (p, [])
    else (take (Z.to_nat dotIndex) p, drop (Z.to_nat dotIndex) p)
  else (p, []).

End OsPath.

Module Images.

(** The members of a regular-expression character class given by the text
    between its brackets: a backslash makes the next character literal and is
    not itself a member. (The class at hand has no range and no negation.) *)
Fixpoint class_members (src : pystr) : list N :=
  match src with
  | [] => []
  | c :: rest =>
      if decide (c = 92%N) then
        match rest with
        | [] => []
        | escaped :: rest' => escaped :: class_members rest'
        end
      else c :: class_members rest
  end.

(** The class of the pattern in [re.sub(pattern, '_', base_filename)], from
    the text between its brackets in the raw string literal: less-than,
    greater-than, colon, double quote (34), slash, backslash, bar, question
    mark and star, in this order. *)
Definition unsafe_class : list N :=
  class_members (lit "<>:" ++ [34%N] ++ lit "/\|?*").

(** [re.sub(pattern, '_', s)]: every character of the class becomes an
    underscore. *)
Definition sanitize (s : pystr) : pystr :=
  (fun c => if decide (c ∈ unsafe_class) then 95%N else c) <$> s.

(** [str(n)] for an integer. *)
Definition str_of_int (n : Z) : pystr :=
  lit (NilZero.string_of_int (Z.to_int n)).

(** [f"image_{random.randint(1000, 9999)}.jpg"], for a given draw. *)
Definition fallback_filename (draw : Z) : pystr :=
  lit "image_" ++ str_of_int draw ++ lit ".jpg".

Definition max_len : Z := 255.

(** The length check of [save]:
    [name, ext = os.path.splitext(filename)] and
    [filename = name[:max_len - len(ext) - 1] + ext]. *)
Definition truncate_filename (filename : pystr) : pystr :=
  if (max_len <? len filename)%Z then
    let '(name, ext) := OsPath.splitext filename in
    slice_to name (max_len - len ext - 1) ++ ext
  else filename.

(** The fields of [class Image(BaseModel)]. *)
Record Image := {
  url : pystr;
  title : pystr;
  alt : pystr;
  proxy : option proxy_arg;
  impersonate : pystr
}.

(** [Image.__str__]. *)
Definition __str__ (self : Image) : pystr :=
  title self ++ lit "(" ++ url self ++ lit ") - " ++ alt self.

(** The two abbreviations [Image.__repr__] computes: a URL of more than 50
    characters is cut to its first and last 20 around an ellipsis, a
    description of more than 30 to its first 30 and an ellipsis. *)
Definition short_url (self : Image) : pystr :=
  if (len (url self) <=? 50)%Z then url self
  else slice_to (url self) 20 ++ lit "..." ++ slice_from (url self) (-20).

Definition short_alt (self : Image) : pystr :=
  if (30 <? len (alt self))%Z then slice_to (alt self) 30 ++ lit "..."
  else alt self.

(** [Image.__repr__]. *)
Definition __repr__ (self : Image) : pystr :=
  lit "Image(title='" ++ title self ++ lit "', url='" ++ short_url self
  ++ lit "', alt='" ++ short_alt self ++ lit "')".

Section Save.

(** The environment of [Image.save]: [unquote(urlparse(url).path)] (or what
    it raises), [Path(filename)], the GET of a session,
    [response.raise_for_status], [Path.mkdir], [Path.write_bytes],
    [str(dest.resolve())], and the outcomes of the first and the second call
    of [random.randint(1000, 9999)]. [Path] of a [str] raises nothing in
    CPython; the outcome is kept open because the code guards the call. *)
Variable unquoted_path : pystr -> result pystr.
Variable new_Path : pystr -> result unit.
Variable http_get : session -> pystr -> result response.
Variable raise_for_status : response -> result unit.
Variable fs_mkdir : pystr -> result unit.
Variable fs_write : pystr -> pystr -> list N -> result unit.
Variable fs_resolve : pystr -> pystr -> pystr.
Variable draw1 draw2 : Z.

(** Generate filename from URL if not provided: the body of
    [if not filename]. Any exception selects the fallback name. *)
Definition derive_filename (self : Image) : pystr :=
  match unquoted_path (url self) with
  | Ok p =>
      let base_filename := OsPath.basename p in
      let safe_filename := sanitize base_filename in
      if (0 <? len safe_filename)%Z then safe_filename
      else fallback_filename draw1
  | Raise _ => fallback_filename draw1
  end.

(** [filename] after the first [if]: [not filename] holds for [None] and
    for the empty string. *)
Definition initial_filename (self : Image) (filename : option pystr) : pystr :=
  match filename with
  | Some (c :: f) => c :: f
  | _ => derive_filename self
  end.

(** Whether the first [if] has called [random.randint]: it has when it
    chose the fallback name. *)
Definition drew_fallback (self : Image) (filename : option pystr) : bool :=
  match filename with
  | Some (_ :: _) => false
  | _ =>
      match unquoted_path (url self) with
      | Ok p => negb (0 <? len (sanitize (OsPath.basename p)))%Z
      | Raise _ => true
      end
  end.

(** The outcome of the next call of [random.randint]: the second one when
    a number has been drawn already, the first one otherwise. *)
Definition next_draw (drawn : bool) : Z := if drawn then draw2 else draw1.

(** Validate filename length: the name to save under, or [None] when the
    save is skipped. Only [OSError] and [ValueError] are caught. [drawn]
    tells whether a random number has been drawn before. *)
Definition validate_filename (filename : pystr) (skip_invalid_filename : bool)
    (drawn : bool) : result (option pystr) :=
  match new_Path filename with
  | Ok _ => Ok (Some (truncate_filename filename))
  | Raise e =>
      if issubclass (exc_type e) OSError || issubclass (exc_type e) ValueError then
        if skip_invalid_filename then Ok None
        else Ok (Some (fallback_filename (next_draw drawn)))
      else Raise e
  end.

(** The [except] clauses of the download. Each of them logs and re-raises;
    the message of the [HTTPError] clause reads the status code of the
    response of the exception, and the message of the [IOError] clause
    mentions [dest], which is unbound until the directory has been created,
    so that evaluating the message raises [UnboundLocalError] instead. *)
Definition on_error {A} (dest_bound : bool) (e : pyexn) : result A :=
  if issubclass (exc_type e) HTTPError then Raise (log_http_error e)
  else if issubclass (exc_type e) RequestException
          || issubclass (exc_type e) CurlError then Raise e
  else if issubclass (exc_type e) OSError then
    if dest_bound then Raise e
    else Raise (Exn UnboundLocalError
                  (lit "cannot access local variable 'dest' where it is not associated with a value"))
  else Raise e.
Arguments on_error : simpl never.

(** The [try] statement of [save]: the statements up to [mkdir] run with
    [dest] unbound, the rest with [dest] bound. *)
Definition download (self : Image) (path filename : pystr)
    (cookies : option (gmap pystr pystr)) : io pystr :=
  let client := Session cookies (proxies_dict (proxy self)) (impersonate self) None in
  response ← try_except
               (response ← perform (HttpGet client (url self))
                             (http_get client (url self));
                _ ← lift (raise_for_status response);
                _ ← perform (Mkdir path) (fs_mkdir path);
                mret response)
               (fun e => lift (on_error false e));
  try_except
    (_ ← perform (WriteBytes path filename (resp_content response))
           (fs_write path filename (resp_content response));
     mret (fs_resolve path filename))
    (fun e => lift (on_error true e)).

(** [Image.save]. *)
Definition save (self : Image) (path : pystr) (filename : option pystr)
    (cookies : option (gmap pystr pystr)) (skip_invalid_filename : bool)
  : io (option pystr) :=
  let drawn := drew_fallback self filename in
  let filename := initial_filename self filename in
  checked ← lift (validate_filename filename skip_invalid_filename drawn);
  match checked with
  | None => mret None
  | Some filename =>
      dest ← download self path filename cookies;
      mret (Some dest)
  end.

End Save.

(** The session [Image.save] opens for its request. *)
Definition client_of (self : Image) (cookies : option (gmap pystr pystr)) : session :=
  Session cookies (proxies_dict (proxy self)) (impersonate self) None.

(** What an action of a download for [self] into [path] under [filename]
    with [cookies] looks like. *)
Definition download_action (self : Image) (path filename : pystr)
    (cookies : option (gmap pystr pystr)) (ev : event) : Prop :=
  match ev with
  | HttpGet s u =>
      s = Session cookies (proxies_dict (proxy self)) (impersonate self) None
      /\ u = url self
  | Mkdir d => d = path
  | WriteBytes d f _ => d = path /\ f = filename
  | HttpPost _ _ _ => False
  end.

(** [class GeneratedImage(Image)]: the inherited fields and [cookies]. *)
Record GeneratedImage := {
  image : Image;
  cookies : gmap pystr pystr
}.

(** [isinstance(v, dict)]. *)
Definition is_dict (v : pyval) : bool :=
  match v with
  | PyDict _ => true
  | _ => false
  end.

(** [GeneratedImage.validate_cookies]. *)
Definition validate_cookies (v : pyval) : result pyval :=
  if negb (py_truthy v) || negb (is_dict v) then
    Raise (Exn ValueError
             (lit "GeneratedImage requires a dictionary of cookies from the client."))
  else Ok v.

(** Pydantic's own check of a [Dict[str, str]] field, which runs before the
    field validator: the input has to be a dictionary of strings. *)
Definition str_of_pyval (v : pyval) : option pystr :=
  match v with
  | PyStr s => Some s
  | _ => None
  end.

Definition as_str_dict (v : pyval) : option (gmap pystr pystr) :=
  match v with
  | PyDict d =>
      if forallb (fun kv => bool_decide (is_Some (str_of_pyval kv.2))) (map_to_list d)
      then Some (omap str_of_pyval d)
      else None
  | _ => None
  end.

(** [GeneratedImage(url=..., cookies=v, ...)]: the [cookies] field is
    checked against its type, then passed through [validate_cookies], whose
    result becomes the field; a [ValueError] of the validator surfaces as
    pydantic's [ValidationError], itself a [ValueError]. *)
Definition new_GeneratedImage (img : Image) (v : pyval) : result GeneratedImage :=
  match as_str_dict v with
  | None =>
      Raise (Exn ValidationError (lit "cookies: Input should be a valid dictionary of strings"))
  | Some d =>
      match validate_cookies (PyDict (PyStr <$> d)) with
      | Ok v' =>
          match as_str_dict v' with
          | Some d' => Ok {| image := img; cookies := d' |}
          | None => Raise (Exn ValidationError (lit "cookies: Input should be a valid dictionary of strings"))
          end
      | Raise e => Raise (Exn ValidationError (exc_str e))
      end
  end.

(** [needle in hay] for strings. *)
Fixpoint starts_with (needle hay : pystr) : bool :=
  match needle, hay with
  | [], _ => true
  | _ :: _, [] => false
  | a :: needle', b :: hay' => bool_decide (a = b) && starts_with needle' hay'
  end.

Fixpoint contains (needle hay : pystr) : bool :=
  starts_with needle hay ||
  match hay with
  | [] => false
  | _ :: hay' => contains needle hay'
  end.

(** The keyword arguments of a call of [GeneratedImage.save]: for each
    parameter of [Image.save] whether it was passed, and the names of any
    other keywords. *)
Record kwargs := {
  kw_path : option pystr;
  kw_filename : option (option pystr);
  kw_cookies : option (option (gmap pystr pystr));
  kw_verbose : option bool;
  kw_skip_invalid_filename : option bool;
  kw_other : list pystr
}.

Section GeneratedSave.

(** In addition to the environment of [Image.save]: [str.lower] and
    [datetime.now().strftime('%Y%m%d%H%M%S')]. *)
Variable unquoted_path : pystr -> result pystr.
Variable new_Path : pystr -> result unit.
Variable http_get : session -> pystr -> result response.
Variable raise_for_status : response -> result unit.
Variable fs_mkdir : pystr -> result unit.
Variable fs_write : pystr -> pystr -> list N -> result unit.
Variable fs_resolve : pystr -> pystr -> pystr.
Variable draw1 draw2 : Z.
Variable str_lower : pystr -> pystr.
Variable now_stamp : pystr.

(** The default [filename] of a generated image; [url.split('/')[-1]] is
    the text after the last slash. *)
Definition default_filename (self : GeneratedImage) : pystr :=
  let ext := if contains (lit ".jpg") (str_lower (url (image self)))
             then lit ".jpg" else lit ".png" in
  let url_part := take 10 (OsPath.basename (url (image self))) in
  now_stamp ++ lit "_" ++ url_part ++ ext.

(** [GeneratedImage.save], called with keyword arguments [kw]: the call of
    the parent's [save] with [cookies=self.cookies] and the entries of [kw]
    is a [TypeError] when [kw] has a [cookies] entry of its own or a keyword
    [Image.save] does not take; otherwise the parameters not passed take
    their defaults. *)
Definition generated_save (self : GeneratedImage) (kw : kwargs) : io (option pystr) :=
  let filename := match kw_filename kw with
                  | Some f => f
                  | None => Some (default_filename self)
                  end in
  match kw_cookies kw, kw_other kw with
  | Some _, _ =>
      raise (Exn TypeError (lit "got multiple values for keyword argument 'cookies'"))
  | None, _ :: _ =>
      raise (Exn TypeError (lit "save() got an unexpected keyword argument"))
  | None, [] =>
      save unquoted_path new_Path http_get raise_for_status fs_mkdir fs_write
        fs_resolve draw1 draw2
        (image self)
        (default (lit "downloaded_images") (kw_path kw))
        filename
        (Some (cookies self))
        (default true (kw_skip_invalid_filename kw))
  end.

End GeneratedSave.

End Images.

(* ===================================================================== *)
(** ** The session engine (specification, section 4)                      *)
(* ===================================================================== *)

(** Modelled from the spec: the package's [core.py] ([Chatbot],
    [AsyncChatbot]), which holds the turn orchestration, is missing from the
    sources; what follows renders sections 3, 4.1, 4.2, 4.4 and 4.5 of the
    specification. Only the model table is the code's own ([Model]). *)
Module SessionEngine.

(** Section 3: the two session tokens. *)
Record Credentials := {
  auth_primary : pystr;
  auth_secondary : pystr
}.

(** Section 3: conversation id, last-response id and chosen-candidate id,
    set together or not at all. *)
Definition ConversationState := option (pystr * pystr * pystr).

(** Section 4.4: [empty] and [advance]. *)
Definition empty : ConversationState := None.

(** Section 3: the decoded reply; the identifiers it carries are the state
    to persist. *)
Record DecodedResult := {
  reply_text : pystr;
  candidates : list pystr;
  images : list (pystr * pystr * pystr * bool);
  identifiers : pystr * pystr * pystr
}.

Definition advance (decoded : DecodedResult) : ConversationState :=
  Some (identifiers decoded).

(** Section 3: an outbound request. The body is kept structured: prompt,
    attachment references and continuation identifiers. *)
Record OutboundRequest := {
  endpoint : pystr;
  headers : gmap pystr pystr;
  body_prompt : pystr;
  body_attachments : list pystr;
  body_state : ConversationState;
  bearer : Credentials
}.

(** Section 7: the error taxonomy. *)
Inductive EngineError :=
| ConfigError
| ModelUnavailableError
| AuthError
| TransportError
| ParseError.

(** What the transport reports for a generate call. *)
Inductive GenerateReply :=
| AuthFailure
| TransportFailure
| Body (raw : pystr).

(** The network calls of a turn, in order. *)
Inductive call :=
| CallRotate (current : Credentials)
| CallGenerate (request : OutboundRequest).

Definition is_generate (c : call) : bool :=
  match c with
  | CallGenerate _ => true
  | CallRotate _ => false
  end.

Definition is_rotate (c : call) : bool := negb (is_generate c).

(** How many generate calls and how many rotate calls a turn made. *)
Definition generate_calls (cs : list call) : nat :=
  length (List.filter is_generate cs).
Definition rotate_calls (cs : list call) : nat :=
  length (List.filter is_rotate cs).

(** Section 4.1: the store and its staleness policy. *)
Record CookieStore := {
  credentials : Credentials;
  rotation_interval : Z
}.

(** Modelled from the spec: [CookieStore.is_stale] of section 4.1, a fixed
    interval policy. *)
Definition is_stale (store : CookieStore) (elapsed : Z) : bool :=
  (rotation_interval store <=? elapsed)%Z.

(** Modelled from the spec: [RequestBuilder.build_generate] of section 4.2;
    the headers are the base chat headers (with [X-Same-Domain]) and the
    model's fragment, the credentials travel with the request. *)
Definition build_generate (prompt : pystr) (attachments : list pystr)
    (model : Model.t) (state : ConversationState) (creds : Credentials)
  : OutboundRequest :=
  {| endpoint := Endpoint.value Endpoint.GENERATE;
     headers := Model.model_header model ∪ Headers.value Headers.GEMINI;
     body_prompt := prompt;
     body_attachments := attachments;
     body_state := state;
     bearer := creds |}.

(** The outcome of a turn: the calls made, the store afterwards, and the
    result with the new state or the error. *)
Record Turn := {
  calls : list call;
  store_after : CookieStore;
  result_of : EngineError + DecodedResult * ConversationState
}.

Section Send.

(** The fixtures: the reply to the [n]-th generate call and to the [n]-th
    rotate call of the turn (counted from 0; a rotation answers with new
    credentials or is rejected), and the decoder of section 4.3. *)
Variable generate_reply : nat -> OutboundRequest -> GenerateReply.
Variable rotate_reply : nat -> Credentials -> option Credentials.
Variable decode : pystr -> option DecodedResult.

(** Section 4.1: [rotate] keeps the old credentials when it fails. *)
Definition with_credentials (store : CookieStore) (c : Credentials) : CookieStore :=
  {| credentials := c; rotation_interval := rotation_interval store |}.

(** Modelled from the spec: steps 6 and 7 of section 4.5, decode, advance,
    return. *)
Definition finish (trace : list call) (store : CookieStore) (raw : pystr) : Turn :=
  match decode raw with
  | None => {| calls := trace; store_after := store; result_of := inl ParseError |}
  | Some decoded =>
      {| calls := trace; store_after := store;
         result_of := inr (decoded, advance decoded) |}
  end.

Definition fail (trace : list call) (store : CookieStore) (e : EngineError) : Turn :=
  {| calls := trace; store_after := store; result_of := inl e |}.

(** Modelled from the spec: step 2 of section 4.5. When the store is
    stale, rotate proactively; a rejected rotation is not fatal and leaves
    the credentials as they were.
    The result is the calls made, the store afterwards and the number of
    rotate calls so far. *)
Definition proactive_rotation (store : CookieStore) (elapsed : Z)
  : list call * CookieStore * nat :=
  if is_stale store elapsed then
    match rotate_reply 0 (credentials store) with
    | Some fresh =>
        ([CallRotate (credentials store)], with_credentials store fresh, 1%nat)
    | None => ([CallRotate (credentials store)], store, 1%nat)
    end
  else ([], store, 0%nat).

(** Modelled from the spec: [SessionEngine.send] of section 4.5 (its
    implementation in [core.py] is missing from the sources), step by
    step. *)
Definition send (store : CookieStore) (elapsed : Z) (advanced_tier : bool)
    (prompt : pystr) (attachments : list pystr) (model_name : pystr)
    (state : ConversationState) : Turn :=
  (* 1. resolve the model; no network activity on failure *)
  match Model.from_name model_name with
  | Raise _ => fail [] store ConfigError
  | Ok model =>
      if Model.advanced_only model && negb advanced_tier
      then fail [] store ModelUnavailableError
      else
        (* 2. proactive rotation *)
        let '(trace0, store0, rotations) := proactive_rotation store elapsed in
        (* 3. build and send the generate request *)
        let request := build_generate prompt attachments model state
                         (credentials store0) in
        let trace1 := trace0 ++ [CallGenerate request] in
        match generate_reply 0 request with
        | Body raw => finish trace1 store0 raw
        | TransportFailure => fail trace1 store0 TransportError
        | AuthFailure =>
            (* 4. rotate once, retry once *)
            let trace2 := trace1 ++ [CallRotate (credentials store0)] in
            match rotate_reply rotations (credentials store0) with
            | None => fail trace2 store0 AuthError
            | Some fresh =>
                let store1 := with_credentials store0 fresh in
                let retry := build_generate prompt attachments model state
                               (credentials store1) in
                let trace3 := trace2 ++ [CallGenerate retry] in
                match generate_reply 1 retry with
                | Body raw => finish trace3 store1 raw
                | TransportFailure => fail trace3 store1 TransportError
                | AuthFailure => fail trace3 store1 AuthError
                end
            end
        end
  end.

End Send.

End SessionEngine.

(* ===================================================================== *)
(** ** Concrete environments                                              *)
(* ===================================================================== *)

(** A concrete environment to run [load_cookies] in: ASCII upper-casing, a
    directory whose only file is [cookies.json], and a [json.load] that
    yields a given list of cookies (or rejects the text). *)
Module Demo.

Definition cookie (name value : string) : pyval :=
  PyDict (<[lit "name" := PyStr (lit name)]>
          (<[lit "value" := PyStr (lit value)]> ∅)).

Definition open_ (path : pystr) : result pystr :=
  if decide (path = lit "cookies.json") then Ok (lit "(exported cookies)")
  else Raise (Exn FileNotFoundError (lit "[Errno 2] No such file or directory")).

Definition load (items : list pyval) (text : pystr) : result pyval :=
  Ok (PyList items).

Definition load_malformed (text : pystr) : result pyval :=
  Raise (Exn JSONDecodeError (lit "Expecting value: line 1 column 1 (char 0)")).

(** Both required cookies, in lower and mixed case, after another cookie. *)
Definition exported : list pyval :=
  [cookie "NID" "511=abc"; cookie "__secure-1psid" "g.a000";
   cookie "__Secure-1PSIDTS" "sidts-xyz"].

(** The same, with an entry of the first name that has an empty value in
    front. *)
Definition shadowed : list pyval :=
  [cookie "__Secure-1PSID" EmptyString; cookie "__Secure-1PSID" "g.a000";
   cookie "__Secure-1PSIDTS" "sidts-xyz"].

(** Each required name twice, with different non-empty values. *)
Definition duplicated : list pyval :=
  [cookie "__Secure-1PSID" "first"; cookie "__SECURE-1PSID" "second";
   cookie "__Secure-1PSIDTS" "ts-1"; cookie "__secure-1psidts" "ts-2"].

(** Two entries of the first name, both with a value, and none of the
    second name. *)
Definition lone : list pyval :=
  [cookie "__Secure-1PSID" "first"; cookie "__secure-1psid" "second"].

(** Only the first of the two required cookies. *)
Definition partial : list pyval :=
  [cookie "__Secure-1PSID" "g.a000"; cookie "NID" "511=abc"].

End Demo.

(** A concrete environment to run [Image.save] in, for URLs of the form
    [https://example.com/...] without escapes or query (their path is what
    follows the nineteen characters of scheme and host): every name is fine
    for [Path], every request succeeds with an empty body, and the file
    system accepts every write. *)
Module DemoImages.

Definition unquoted_path (url : pystr) : result pystr := Ok (drop 19 url).
Definition new_Path (filename : pystr) : result unit := Ok ().
Definition http_get (s : session) (url : pystr) : result response :=
  Ok (Response [] []).
Definition raise_for_status (r : response) : result unit := Ok ().
Definition fs_mkdir (dir : pystr) : result unit := Ok ().
Definition fs_write (dir filename : pystr) (content : list N) : result unit := Ok ().
Definition fs_resolve (dir filename : pystr) : pystr :=
  lit "/home/user/" ++ dir ++ lit "/" ++ filename.

Definition image_at (url : pystr) : Images.Image :=
  {| Images.url := url; Images.title := lit "[Image]"; Images.alt := [];
     Images.proxy := None; Images.impersonate := lit "chrome110" |}.

(** [Image(url=url).save()], all parameters at their defaults. *)
Definition save_default (url : pystr) : io (option pystr) :=
  Images.save unquoted_path new_Path http_get raise_for_status fs_mkdir
    fs_write fs_resolve 4242 1717 (image_at url) (lit "downloaded_images")
    None None true.

(** A [Path] that rejects every name. *)
Definition save_rejecting (url : pystr) : io (option pystr) :=
  Images.save unquoted_path
    (fun _ => Raise (Exn ValueError (lit "embedded null byte")))
    http_get raise_for_status fs_mkdir
    fs_write fs_resolve 4242 1717 (image_at url) (lit "downloaded_images")
    None None true.

Definition generated_save (g : Images.GeneratedImage) (kw : Images.kwargs)
  : io (option pystr) :=
  Images.generated_save unquoted_path new_Path http_get raise_for_status
    fs_mkdir fs_write fs_resolve 4242 1717 ascii_lower (lit "20250101120000") g kw.

Definition no_kwargs : Images.kwargs :=
  {| Images.kw_path := None; Images.kw_filename := None;
     Images.kw_cookies := None; Images.kw_verbose := None;
     Images.kw_skip_invalid_filename := None; Images.kw_other := [] |}.

(** The cookies of a client, as a value and as the field they become. *)
Definition client_cookies : gmap pystr pystr :=
  <[lit "__Secure-1PSID" := lit "g.a000"]> ∅.

Definition generated : Images.GeneratedImage :=
  {| Images.image := image_at (lit "https://example.com/g/1.png");
     Images.cookies := client_cookies |}.

(** A URL whose last path segment is [a.] followed by three hundred [b]. *)
Definition long_extension_url : pystr :=
  lit "https://example.com/img/a." ++ repeat 98%N 300.

(** A URL whose last path segment has 512 characters and ends in [.png]. *)
Definition long_name_url : pystr :=
  lit "https://example.com/img/" ++ repeat 97%N 508 ++ lit ".png".

End DemoImages.

(** Fixtures for a turn: every generate call is rejected for want of
    authentication, every rotation succeeds. *)
Module DemoEngine.

Import SessionEngine.

Definition old_credentials : Credentials :=
  {| auth_primary := lit "g.a000-old"; auth_secondary := lit "sidts-old" |}.

Definition fresh_credentials : Credentials :=
  {| auth_primary := lit "g.a000-new"; auth_secondary := lit "sidts-new" |}.

Definition store : CookieStore :=
  {| credentials := old_credentials; rotation_interval := 3600 |}.

Definition always_rejected (n : nat) (request : OutboundRequest) : GenerateReply :=
  AuthFailure.

Definition rotation_succeeds (n : nat) (current : Credentials) : option Credentials :=
  Some fresh_credentials.

Definition no_decoder (raw : pystr) : option DecodedResult := None.

(** A first turn, ten seconds after the credentials were loaded. *)
Definition turn : Turn :=
  send always_rejected rotation_succeeds no_decoder store 10 false
    (lit "hello") [] (lit "gemini-2.5-flash") empty.

(** The same turn with a service that rejects every rotation. *)
Definition rotation_rejected (n : nat) (current : Credentials) : option Credentials :=
  None.

Definition turn_rotation_rejected : Turn :=
  send always_rejected rotation_rejected no_decoder store 10 false
    (lit "hello") [] (lit "gemini-2.5-flash") empty.

(** The same turn two hours after the credentials were loaded, when the
    store is stale. *)
Definition turn_stale : Turn :=
  send always_rejected rotation_succeeds no_decoder store 7200 false
    (lit "hello") [] (lit "gemini-2.5-flash") empty.

End DemoEngine.

(** Further fixtures: a cookie file that holds one object instead of a
    list, values that are no cookies, two files with the same cookies in
    opposite orders; an upload that succeeds, a directory without files, and
    status checks that fail; a directory that cannot be created and a
    request that times out. *)
Module DemoMore.

Definition load_object (text : pystr) : result pyval :=
  Ok (Demo.cookie "__Secure-1PSID" "g.a000").

Definition trailing : list pyval :=
  [PyInt 7; PyNone; PyStr (lit "not a cookie")].

Definition open_two (path : pystr) : result pystr :=
  if decide (path = lit "a.json") then Ok (lit "A")
  else if decide (path = lit "b.json") then Ok (lit "B")
  else Raise (Exn FileNotFoundError (lit "[Errno 2] No such file or directory")).

Definition load_two (text : pystr) : result pyval :=
  if decide (text = lit "A") then Ok (PyList Demo.exported)
  else Ok (PyList (rev Demo.exported)).

Definition http_post (s : session) (url : pystr) (content : list N)
  : result response :=
  Ok (Response (lit "/contrib_service/ttl_1d/1700000000") []).

(** [Path.is_file] in an empty directory of a file system whose names have
    at most 255 characters: [stat] fails with [ENAMETOOLONG] on a longer
    name, which [is_file] passes on, and with [ENOENT] on any other, for
    which [is_file] answers [False]. *)
Definition is_file (p : pystr) : result bool :=
  if (255 <? len p)%Z
  then Raise (Exn OSError (lit "[Errno 36] File name too long: '" ++ p ++ lit "'"))
  else Ok false.

(** A status check that finds 404, and one whose [HTTPError] has been
    raised without a response. *)
Definition not_found : pyexn :=
  ExnWith HTTPError (lit "404 Client Error: Not Found for url") (Some 404%Z).

Definition status_not_found (r : response) : result unit := Raise not_found.

Definition status_without_response (r : response) : result unit :=
  Raise (Exn HTTPError (lit "502 Server Error: Bad Gateway")).

Definition mkdir_denied (dir : pystr) : result unit :=
  Raise (Exn PermissionError (lit "[Errno 13] Permission denied")).

Definition get_timeout (s : session) (url : pystr) : result response :=
  Raise (Exn Timeout (lit "Operation timed out")).

Definition png : Images.Image :=
  DemoImages.image_at (lit "https://example.com/files/a.png").

End DemoMore.

(* ===================================================================== *)
(** * Properties                                                          *)
(* ===================================================================== *)

(** ** enums.py *)

Section EnumsProperties.

Import Model.

Lemma members_complete (m : Model.t) : m ∈ members.
Proof. destruct m; unfold members; set_solver. Qed.

Lemma model_name_inj (m1 m2 : Model.t) :
  model_name m1 = model_name m2 -> m1 = m2.
Proof. destruct m1, m2; first [reflexivity | intros H; now vm_compute in H]. Qed.

Lemma from_name_loop_Some (name : pystr) (ms : list Model.t) (m : Model.t) :
  from_name_loop name ms = Some m -> m ∈ ms /\ model_name m = name.
Proof.
  induction ms as [|x ms IH]; simpl; [discriminate|].
  destruct (decide (model_name x = name)) as [Hx|Hx].
  - intros [= <-]. split; [left | exact Hx].
  - intros H. destruct (IH H) as [Hin Hn]. split; [now right | exact Hn].
Qed.

Lemma from_name_loop_None (name : pystr) (ms : list Model.t) :
  from_name_loop name ms = None -> forall m, m ∈ ms -> model_name m <> name.
Proof.
  induction ms as [|x ms IH]; simpl; intros H m Hm.
  - inversion Hm.
  - destruct (decide (model_name x = name)) as [Hx|Hx]; [discriminate|].
    apply elem_of_cons in Hm as [->|Hm]; [exact Hx | now apply IH].
Qed.

(** C4. The model configurations are the seven members of [Model], with
    pairwise distinct canonical names; [Model.from_name name] returns the one
    member named [name] when there is one, and raises [ValueError] when
    there is none: it never answers with a default member. *)
Theorem from_name_unique_or_ValueError (name : pystr) :
  NoDup (map model_name members) /\
  match from_name name with
  | Ok m =>
      model_name m = name /\ forall m', model_name m' = name <-> m' = m
  | Raise e =>
      exc_type e = ValueError /\ forall m, model_name m <> name
  end.
Proof.
  split.
  - apply (bool_decide_unpack _). vm_compute. exact I.
  - unfold from_name.
    destruct (from_name_loop name members) as [m|] eqn:Hloop.
    + apply from_name_loop_Some in Hloop as [_ Hm]. split; [exact Hm|].
      intros m'. split.
      * intros Hm'. apply model_name_inj. congruence.
      * intros ->. exact Hm.
    + split; [reflexivity|].
      intros m. eapply from_name_loop_None; [exact Hloop | apply members_complete].
Qed.

Example from_name_known :
  from_name (lit "gemini-2.0-flash-thinking") = Ok G_2_0_FLASH_THINKING.
Proof. reflexivity. Qed.

Example from_name_is_case_sensitive :
  exists msg, from_name (lit "Gemini-2.5-Pro") = Raise (Exn ValueError msg).
Proof. eexists. reflexivity. Qed.

(** C7. The header dictionary for generate requests carries
    [X-Same-Domain: 1] and a URL-form-encoded content type, the one for the
    rotate-cookies request a JSON content type, and the two content types
    differ. *)
Theorem generate_and_rotate_headers :
  Headers.value Headers.GEMINI !! lit "X-Same-Domain" = Some (lit "1") /\
  Headers.value Headers.GEMINI !! lit "Content-Type"
    = Some (lit "application/x-www-form-urlencoded" ++ lit ";charset=utf-8") /\
  Headers.value Headers.ROTATE_COOKIES !! lit "Content-Type"
    = Some (lit "application/json") /\
  Headers.value Headers.GEMINI !! lit "Content-Type"
    <> Headers.value Headers.ROTATE_COOKIES !! lit "Content-Type".
Proof. repeat split; try reflexivity. intros H. now vm_compute in H. Qed.

End EnumsProperties.

(** ** utils.py: [load_cookies] *)

Section LoadCookiesProperties.

Import Utils.

Variable str_upper : pystr -> pystr.
Variable fs_open : pystr -> result pystr.
Variable json_load : pystr -> result pyval.

Local Abbreviation name_matches := (Utils.name_matches str_upper).
Local Abbreviation next_value := (Utils.next_value str_upper).
Local Abbreviation first_value := (Utils.first_value str_upper).
Local Abbreviation load_cookies_try := (Utils.load_cookies_try str_upper fs_open json_load).
Local Abbreviation load_cookies := (Utils.load_cookies str_upper fs_open json_load).
Local Abbreviation named := (Utils.named str_upper).
Local Abbreviation contains_cookie := (Utils.contains_cookie str_upper).
Local Abbreviation earliest_cookie := (Utils.earliest_cookie str_upper).
Local Abbreviation looked_up := (Utils.looked_up str_upper).
Local Abbreviation stop_value := (Utils.stop_value str_upper).

Lemma as_cookie_Some (item : pyval) (n : pystr) (v : pyval) (target : pystr) :
  as_cookie item = Some (n, v) ->
  name_matches target item = Ok (bool_decide (str_upper n = target)) /\
  py_getitem item (lit "value") = Ok v.
Proof.
  destruct item as [| | | | |?|d]; simpl; try discriminate.
  unfold Utils.name_matches. simpl.
  destruct (d !! lit "name") as [[]|]; try discriminate.
  destruct (d !! lit "value"); try discriminate.
  intros [= -> ->]. split; reflexivity.
Qed.

Lemma next_value_cookie_list (target : pystr) (items : list pyval)
    (cs : list (pystr * pyval)) :
  cookie_list items = Some cs ->
  next_value target items = Ok (default PyNone (stop_value target cs)).
Proof.
  unfold cookie_list. rewrite mapM_Some. induction 1 as [|item [n v] items cs Hc _ IH].
  - reflexivity.
  - destruct (as_cookie_Some _ _ _ target Hc) as [Hm Hv].
    cbn [Utils.next_value stop_value]. rewrite Hm. cbn.
    destruct (decide (str_upper n = target)) as [Heq|Hne].
    + rewrite bool_decide_eq_true_2 by exact Heq. exact Hv.
    + rewrite bool_decide_eq_false_2 by exact Hne. exact IH.
Qed.

Lemma stop_value_earliest (target : pystr) (v : pyval) (cs : list (pystr * pyval)) :
  stop_value target cs = Some v <-> earliest_cookie target v cs.
Proof.
  split.
  - induction cs as [|[n w] cs IH]; simpl; [discriminate|].
    destruct (decide (str_upper n = target)) as [Heq|Hne].
    + intros [= ->]. exists [], n, cs. split; [reflexivity|]. split; [exact Heq|].
      intros c Hc. inversion Hc.
    + intros H. destruct (IH H) as (before & m & after & -> & Hm & Hb).
      exists ((n, w) :: before), m, after. split; [reflexivity|]. split; [exact Hm|].
      intros c Hc. apply elem_of_cons in Hc as [->|Hc]; [exact Hne | now apply Hb].
  - intros (before & n & after & -> & Hn & Hb).
    induction before as [|[m w] before IH]; simpl.
    + unfold Utils.named in Hn. simpl in Hn. now rewrite decide_True.
    + rewrite decide_False.
      * apply IH. intros c Hc. apply Hb. now right.
      * apply (Hb (m, w)). left.
Qed.

Lemma stop_value_None (target : pystr) (cs : list (pystr * pyval)) :
  stop_value target cs = None <-> forall c, c ∈ cs -> ~ named target c.
Proof.
  induction cs as [|[n w] cs IH]; simpl.
  - split; [|reflexivity]. intros _ c Hc. inversion Hc.
  - destruct (decide (str_upper n = target)) as [Heq|Hne].
    + split; [discriminate|]. intros H. exfalso. apply (H (n, w)); [left | exact Heq].
    + rewrite IH. split.
      * intros H c Hc. apply elem_of_cons in Hc as [->|Hc]; [exact Hne | now apply H].
      * intros H c Hc. apply H. now right.
Qed.

(** What [load_cookies] does on a file that holds a cookie list: everything
    is decided by the value the generator stops at for each name. *)
Lemma load_cookies_cookie_list (path file : pystr) (items : list pyval)
    (cs : list (pystr * pyval)) :
  fs_open path = Ok file ->
  json_load file = Ok (PyList items) ->
  cookie_list items = Some cs ->
  load_cookies path =
    let a := default PyNone (stop_value PSID cs) in
    let b := default PyNone (stop_value PSIDTS cs) in
    if py_truthy a && py_truthy b then Ok (a, b)
    else Raise required_cookies_error.
Proof.
  intros Hopen Hload Hcs.
  unfold Utils.load_cookies, Utils.load_cookies_try.
  rewrite Hopen. cbn. rewrite Hload. cbn.
  unfold Utils.first_value. cbn.
  rewrite !(next_value_cookie_list _ _ _ Hcs). cbn.
  destruct (py_truthy (default PyNone (stop_value PSID cs)));
    destruct (py_truthy (default PyNone (stop_value PSIDTS cs))); reflexivity.
Qed.

Lemma issubclass_Exception (c : pyclass) : issubclass c Exception = true.
Proof. destruct c; reflexivity. Qed.

Lemma load_cookies_except_descriptive (path : pystr) (e : pyexn) :
  exists e', load_cookies_except path e = Raise e' /\ descriptive path e'.
Proof.
  unfold load_cookies_except, descriptive.
  destruct (issubclass (exc_type e) FileNotFoundError); [eexists; split; [reflexivity|]; simpl; auto|].
  destruct (issubclass (exc_type e) JSONDecodeError); [eexists; split; [reflexivity|]; simpl; auto|].
  destruct (issubclass (exc_type e) StopIteration);
    [eexists; split; [reflexivity|]; simpl; split; [reflexivity|]; right; right; left; eauto|].
  rewrite issubclass_Exception.
  eexists; split; [reflexivity|]; simpl; split; [reflexivity|]; right; right; right; eauto.
Qed.

Lemma load_cookies_try_truthy (path : pystr) (a b : pyval) :
  load_cookies_try path = Ok (a, b) -> py_truthy a = true /\ py_truthy b = true.
Proof.
  unfold Utils.load_cookies_try.
  destruct (fs_open path) as [file|]; [cbn|discriminate].
  destruct (json_load file) as [cookies|]; [cbn|discriminate].
  destruct (first_value PSID cookies) as [x|]; [cbn|discriminate].
  destruct (first_value PSIDTS cookies) as [y|]; [cbn|discriminate].
  destruct (py_truthy x) eqn:Hx, (py_truthy y) eqn:Hy; cbn; try discriminate.
  intros [= <- <-]. auto.
Qed.

(** C3. [load_cookies] either returns a pair of two non-empty (truthy)
    values or raises an [Exception] with one of its four messages; it never
    returns a pair with a missing or empty component. An absent file, a
    malformed file, and a cookie list in which a required name has no entry
    with a non-empty value each fail with the message written for the
    case. *)
Theorem load_cookies_fails_descriptively (path : pystr) :
  match load_cookies path with
  | Ok (a, b) => py_truthy a = true /\ py_truthy b = true
  | Raise e => descriptive path e
  end /\
  (forall e, fs_open path = Raise e ->
     issubclass (exc_type e) FileNotFoundError = true ->
     load_cookies path
       = Raise (Exn Exception (lit "Cookie file not found at path: " ++ path))) /\
  (forall file e, fs_open path = Ok file -> json_load file = Raise e ->
     exc_type e = JSONDecodeError ->
     load_cookies path
       = Raise (Exn Exception (lit "Invalid JSON format in the cookie file."))) /\
  (forall file items cs target,
     fs_open path = Ok file -> json_load file = Ok (PyList items) ->
     cookie_list items = Some cs ->
     target = PSID \/ target = PSIDTS ->
     (forall c, c ∈ cs -> named target c -> py_truthy c.2 = false) ->
     load_cookies path = Raise required_cookies_error).
Proof.
  repeat split.
  - unfold Utils.load_cookies.
    destruct (load_cookies_try path) as [[a b]|e] eqn:Htry.
    + now apply (load_cookies_try_truthy path).
    + destruct (load_cookies_except_descriptive path e) as (e' & -> & He'). exact He'.
  - intros e Hopen Hsub.
    unfold Utils.load_cookies, Utils.load_cookies_try. rewrite Hopen. cbn.
    unfold load_cookies_except. now rewrite Hsub.
  - intros file e Hopen Hload Hcls.
    unfold Utils.load_cookies, Utils.load_cookies_try. rewrite Hopen. cbn.
    rewrite Hload. cbn. unfold load_cookies_except. now rewrite Hcls.
  - intros file items cs target Hopen Hload Hcs Htarget Hfalsy.
    rewrite (load_cookies_cookie_list _ _ _ _ Hopen Hload Hcs). cbv zeta.
    assert (py_truthy (default PyNone (stop_value target cs)) = false) as Hstop.
    { destruct (stop_value target cs) as [v|] eqn:Hv; [|reflexivity].
      apply stop_value_earliest in Hv as (before & n & after & -> & Hn & _).
      apply (Hfalsy (n, v)); [|exact Hn].
      apply elem_of_app. right. left. }
    destruct Htarget as [-> | ->]; rewrite Hstop; [reflexivity|].
    now rewrite andb_false_r.
Qed.

(** With the earliest entries of the two names at hand, nothing else in the
    list matters. *)
Lemma load_cookies_earliest (path file : pystr) (items : list pyval)
    (cs : list (pystr * pyval)) (a b : pyval) :
  fs_open path = Ok file ->
  json_load file = Ok (PyList items) ->
  cookie_list items = Some cs ->
  earliest_cookie PSID a cs ->
  earliest_cookie PSIDTS b cs ->
  load_cookies path =
    if py_truthy a && py_truthy b then Ok (a, b) else Raise required_cookies_error.
Proof.
  intros Hopen Hload Hcs Ha Hb.
  rewrite (load_cookies_cookie_list _ _ _ _ Hopen Hload Hcs).
  apply stop_value_earliest in Ha, Hb. now rewrite Ha, Hb.
Qed.

(** C1, amended. On a cookie list in which the earliest entry named
    [__Secure-1PSID] and the earliest entry named [__Secure-1PSIDTS] (names
    compared after upper-casing) both have a non-empty value,
    [load_cookies] returns exactly the pair of these two values, wherever
    the two entries stand and whatever other entries the list has. *)
Theorem load_cookies_returns_earliest_pair (path file : pystr)
    (items : list pyval) (cs : list (pystr * pyval)) (v1 v2 : pystr) :
  fs_open path = Ok file ->
  json_load file = Ok (PyList items) ->
  cookie_list items = Some cs ->
  earliest_cookie PSID (PyStr v1) cs -> v1 <> [] ->
  earliest_cookie PSIDTS (PyStr v2) cs -> v2 <> [] ->
  load_cookies path = Ok (PyStr v1, PyStr v2).
Proof.
  intros Hopen Hload Hcs H1 Hv1 H2 Hv2.
  rewrite (load_cookies_earliest _ _ _ _ _ _ Hopen Hload Hcs H1 H2).
  destruct v1; [contradiction|]. destruct v2; [contradiction|]. reflexivity.
Qed.

Lemma stop_value_looked_up (target : pystr) (v : pyval) (cs : list (pystr * pyval)) :
  looked_up target v cs -> default PyNone (stop_value target cs) = v.
Proof.
  intros [Hearly | [-> Hnone]].
  - apply stop_value_earliest in Hearly. now rewrite Hearly.
  - apply stop_value_None in Hnone. now rewrite Hnone.
Qed.

(** C9, amended. However many entries carry a required name, the earliest
    of them in list order alone stands for the name (and [None] for a name
    without an entry): [load_cookies] returns the values of the earliest
    entries of the two names when both are non-empty, and raises the error
    of the missing cookies otherwise, whatever the later entries of that
    name hold; it does not go on to a later entry. The result is a function
    of the content of the file: two files with the same cookie list give the
    same result. *)
Theorem load_cookies_earliest_entry_wins (path file : pystr)
    (items : list pyval) (cs : list (pystr * pyval)) (a b : pyval) :
  fs_open path = Ok file ->
  json_load file = Ok (PyList items) ->
  cookie_list items = Some cs ->
  looked_up PSID a cs ->
  looked_up PSIDTS b cs ->
  load_cookies path =
    (if py_truthy a && py_truthy b then Ok (a, b) else Raise required_cookies_error) /\
  forall path' file',
    fs_open path' = Ok file' -> json_load file' = Ok (PyList items) ->
    load_cookies path' = load_cookies path.
Proof.
  intros Hopen Hload Hcs Ha Hb. split.
  - rewrite (load_cookies_cookie_list _ _ _ _ Hopen Hload Hcs). cbv zeta.
    now rewrite (stop_value_looked_up _ _ _ Ha), (stop_value_looked_up _ _ _ Hb).
  - intros path' file' Hopen' Hload'.
    rewrite (load_cookies_cookie_list _ _ _ _ Hopen Hload Hcs).
    now rewrite (load_cookies_cookie_list _ _ _ _ Hopen' Hload' Hcs).
Qed.

(** When every entry of a required name carries the same non-empty value,
    in particular when each required name occurs once, the order of the list
    is immaterial. *)
Corollary load_cookies_any_order (path file : pystr)
    (items : list pyval) (cs : list (pystr * pyval)) (v1 v2 : pystr) :
  fs_open path = Ok file ->
  json_load file = Ok (PyList items) ->
  cookie_list items = Some cs ->
  contains_cookie PSID (PyStr v1) cs -> v1 <> [] ->
  (forall c, c ∈ cs -> named PSID c -> c.2 = PyStr v1) ->
  contains_cookie PSIDTS (PyStr v2) cs -> v2 <> [] ->
  (forall c, c ∈ cs -> named PSIDTS c -> c.2 = PyStr v2) ->
  load_cookies path = Ok (PyStr v1, PyStr v2).
Proof.
  intros Hopen Hload Hcs (n1 & Hin1 & Hn1) Hv1 Hall1 (n2 & Hin2 & Hn2) Hv2 Hall2.
  assert (forall target v, (exists n, (n, v) ∈ cs /\ named target (n, v)) ->
            (forall c, c ∈ cs -> named target c -> c.2 = v) ->
            earliest_cookie target v cs) as Hearly.
  { intros target v (n & Hin & Hn) Hall.
    destruct (stop_value target cs) as [w|] eqn:Hw.
    - pose proof Hw as Hw'.
      apply stop_value_earliest in Hw' as (before & m & after & -> & Hm & _).
      assert (w = v) as <-; [|now apply stop_value_earliest].
      apply (Hall (m, w)); [|exact Hm]. apply elem_of_app. right. left.
    - exfalso. rewrite stop_value_None in Hw. exact (Hw _ Hin Hn). }
  rewrite (load_cookies_earliest path file items cs (PyStr v1) (PyStr v2)); eauto.
  destruct v1; [contradiction|]. destruct v2; [contradiction|]. reflexivity.
Qed.

End LoadCookiesProperties.


Example ascii_upper_any_case :
  ascii_upper (lit "__secure-1PsId") = Utils.PSID /\
  ascii_upper (lit "__Secure-1PSIDTS") = Utils.PSIDTS /\
  ascii_upper (lit "__Secure-1PSIDTS") <> Utils.PSID.
Proof. repeat split; try reflexivity. intros H. now vm_compute in H. Qed.

Lemma load_cookies_returns_earliest_pair_witness :
  Utils.load_cookies ascii_upper Demo.open_ (Demo.load Demo.exported) (lit "cookies.json")
  = Ok (PyStr (lit "g.a000"), PyStr (lit "sidts-xyz")).
Proof.
  eapply (load_cookies_returns_earliest_pair ascii_upper Demo.open_
            (Demo.load Demo.exported) (lit "cookies.json")).
  - reflexivity.
  - reflexivity.
  - vm_compute. reflexivity.
  - apply stop_value_earliest. vm_compute. reflexivity.
  - vm_compute. discriminate.
  - apply stop_value_earliest. vm_compute. reflexivity.
  - vm_compute. discriminate.
Defined.

(** C1, as stated, fails on a list in which an entry of a required name with
    an empty value precedes one with a non-empty value: the list contains an
    entry of each required name with a non-empty value, and [load_cookies]
    raises instead of returning the pair. *)
Lemma load_cookies_shadowed_entry :
  exists cs,
    Utils.cookie_list Demo.shadowed = Some cs /\
    Utils.contains_cookie ascii_upper Utils.PSID (PyStr (lit "g.a000")) cs /\
    lit "g.a000" <> [] /\
    Utils.contains_cookie ascii_upper Utils.PSIDTS (PyStr (lit "sidts-xyz")) cs /\
    lit "sidts-xyz" <> [] /\
    Utils.load_cookies ascii_upper Demo.open_ (Demo.load Demo.shadowed) (lit "cookies.json")
    = Raise Utils.required_cookies_error.
Proof.
  eexists. split; [vm_compute; reflexivity|].
  split; [exists (lit "__Secure-1PSID"); split; [right; left | reflexivity]|].
  split; [vm_compute; discriminate|].
  split; [exists (lit "__Secure-1PSIDTS"); split; [right; right; left | reflexivity]|].
  split; [vm_compute; discriminate|].
  vm_compute. reflexivity.
Qed.

Lemma load_cookies_fails_descriptively_witness :
  Utils.load_cookies ascii_upper Demo.open_ (Demo.load Demo.partial) (lit "absent.json")
  = Raise (Exn Exception (lit "Cookie file not found at path: " ++ lit "absent.json")) /\
  Utils.load_cookies ascii_upper Demo.open_ Demo.load_malformed (lit "cookies.json")
  = Raise (Exn Exception (lit "Invalid JSON format in the cookie file.")) /\
  Utils.load_cookies ascii_upper Demo.open_ (Demo.load Demo.partial) (lit "cookies.json")
  = Raise Utils.required_cookies_error.
Proof.
  split; [|split].
  - destruct (load_cookies_fails_descriptively ascii_upper Demo.open_
                (Demo.load Demo.partial) (lit "absent.json")) as (_ & Habsent & _).
    eapply Habsent; reflexivity.
  - destruct (load_cookies_fails_descriptively ascii_upper Demo.open_
                Demo.load_malformed (lit "cookies.json")) as (_ & _ & Hbad & _).
    eapply Hbad; reflexivity.
  - destruct (load_cookies_fails_descriptively ascii_upper Demo.open_
                (Demo.load Demo.partial) (lit "cookies.json")) as (_ & _ & _ & Hmissing).
    eapply (Hmissing _ _ _ Utils.PSIDTS); [reflexivity | reflexivity | vm_compute; reflexivity | now right |].
    intros c Hc Hn. exfalso.
    repeat (apply elem_of_cons in Hc as [-> | Hc]; [now vm_compute in Hn|]).
    inversion Hc.
Defined.

Lemma load_cookies_earliest_entry_wins_witness :
  Utils.load_cookies ascii_upper Demo.open_ (Demo.load Demo.duplicated) (lit "cookies.json")
  = Ok (PyStr (lit "first"), PyStr (lit "ts-1")) /\
  Utils.load_cookies ascii_upper Demo.open_ (Demo.load Demo.shadowed) (lit "cookies.json")
  = Raise Utils.required_cookies_error /\
  Utils.load_cookies ascii_upper Demo.open_ (Demo.load Demo.lone) (lit "cookies.json")
  = Raise Utils.required_cookies_error.
Proof.
  split; [|split].
  - refine (proj1 (load_cookies_earliest_entry_wins ascii_upper Demo.open_
              (Demo.load Demo.duplicated) (lit "cookies.json") _ _ _
              (PyStr (lit "first")) (PyStr (lit "ts-1")) _ _ _ _ _)).
    + reflexivity.
    + reflexivity.
    + vm_compute. reflexivity.
    + left. apply stop_value_earliest. vm_compute. reflexivity.
    + left. apply stop_value_earliest. vm_compute. reflexivity.
  - refine (proj1 (load_cookies_earliest_entry_wins ascii_upper Demo.open_
              (Demo.load Demo.shadowed) (lit "cookies.json") _ _ _
              (PyStr []) (PyStr (lit "sidts-xyz")) _ _ _ _ _)).
    + reflexivity.
    + reflexivity.
    + vm_compute. reflexivity.
    + left. apply stop_value_earliest. vm_compute. reflexivity.
    + left. apply stop_value_earliest. vm_compute. reflexivity.
  - refine (proj1 (load_cookies_earliest_entry_wins ascii_upper Demo.open_
              (Demo.load Demo.lone) (lit "cookies.json") _ _ _
              (PyStr (lit "first")) PyNone _ _ _ _ _)).
    + reflexivity.
    + reflexivity.
    + vm_compute. reflexivity.
    + left. apply stop_value_earliest. vm_compute. reflexivity.
    + right. split; [reflexivity|]. apply stop_value_None. vm_compute. reflexivity.
Defined.

(** C9, as stated, fails on a list with two entries of the first name whose
    earliest has an empty value, and on a list with two entries of the first
    name and none of the second: [load_cookies] raises in both cases and
    returns the value of no entry. *)
Lemma load_cookies_earliest_empty_raises :
  (exists cs,
     Utils.cookie_list Demo.shadowed = Some cs /\
     length (List.filter (fun c => bool_decide (ascii_upper c.1 = Utils.PSID)) cs) = 2%nat /\
     Utils.earliest_cookie ascii_upper Utils.PSID (PyStr []) cs /\
     Utils.load_cookies ascii_upper Demo.open_ (Demo.load Demo.shadowed) (lit "cookies.json")
     = Raise Utils.required_cookies_error) /\
  (exists cs,
     Utils.cookie_list Demo.lone = Some cs /\
     length (List.filter (fun c => bool_decide (ascii_upper c.1 = Utils.PSID)) cs) = 2%nat /\
     Utils.earliest_cookie ascii_upper Utils.PSID (PyStr (lit "first")) cs /\
     Utils.load_cookies ascii_upper Demo.open_ (Demo.load Demo.lone) (lit "cookies.json")
     = Raise Utils.required_cookies_error).
Proof.
  split; eexists; (split; [vm_compute; reflexivity|]);
    (split; [vm_compute; reflexivity|]);
    (split; [apply stop_value_earliest; vm_compute; reflexivity|]);
    vm_compute; reflexivity.
Qed.

(** ** utils.py: [upload_file] *)

Section UploadFileProperties.

Variable is_file : pystr -> result bool.
Variable read_bytes : pystr -> result (list N).
Variable http_post : session -> pystr -> list N -> result response.
Variable raise_for_status : response -> result unit.

Local Abbreviation upload_file :=
  (Utils.upload_file is_file read_bytes http_post raise_for_status).

(** C8, amended. For a [file] argument that is not [bytes] and whose path
    [Path.is_file] does not report as a regular file, [upload_file] makes no
    network request and raises: [FileNotFoundError] with the message of
    line 42 when [is_file] answers [False], and the exception of [is_file]
    itself, unchanged, when the check raises. In neither case is the
    exception wrapped in another one. *)
Theorem upload_file_missing_path (p : pystr) (proxy : option proxy_arg)
    (impersonate : pystr) :
  is_file p <> Ok true ->
  upload_file (Utils.PathLike p) proxy impersonate
  = IO [] (Raise match is_file p with
                 | Ok _ => Exn FileNotFoundError (lit "File not found at path: " ++ p)
                 | Raise e => e
                 end).
Proof.
  intros Hfile. unfold Utils.upload_file.
  destruct (is_file p) as [[|]|e]; [contradiction|reflexivity|reflexivity].
Qed.

(** For comparison: with the file at hand the request is made. *)
Lemma upload_file_posts (p : pystr) (content : list N)
    (proxy : option proxy_arg) (impersonate : pystr) :
  is_file p = Ok true -> read_bytes p = Ok content ->
  trace (upload_file (Utils.PathLike p) proxy impersonate)
  = [HttpPost (Session None (proxies_dict proxy) impersonate
                 (Some (Headers.value Headers.UPLOAD)))
       (Endpoint.value Endpoint.UPLOAD) content].
Proof.
  intros Hfile Hread. unfold Utils.upload_file. rewrite Hfile, Hread.
  unfold try_except, mbind, io_bind, perform, lift, mret, io_ret.
  cbn [trace outcome app].
  destruct (http_post _ _ _) as [r|e]; cbn [trace outcome app];
    [destruct (raise_for_status r); cbn [trace outcome app]|];
    reflexivity.
Qed.

End UploadFileProperties.

Lemma upload_file_missing_path_witness :
  Utils.upload_file DemoMore.is_file (fun _ => Ok []) DemoMore.http_post
    (fun _ => Ok ()) (Utils.PathLike (lit "photo.png")) None (lit "chrome110")
  = IO [] (Raise (Exn FileNotFoundError (lit "File not found at path: " ++ lit "photo.png"))).
Proof.
  apply (upload_file_missing_path DemoMore.is_file (fun _ => Ok []) DemoMore.http_post
           (fun _ => Ok ()) (lit "photo.png") None (lit "chrome110")).
  vm_compute. discriminate.
Defined.

(** C8, as stated, fails on a path that names no regular file because its
    name is too long for the file system: [is_file] raises [OSError] for it
    (errno 36), and so does [upload_file], where the claim has
    [FileNotFoundError]. *)
Lemma upload_file_name_too_long :
  Utils.upload_file DemoMore.is_file (fun _ => Ok []) DemoMore.http_post
    (fun _ => Ok ()) (Utils.PathLike (repeat 97%N 300)) None (lit "chrome110")
  = IO [] (Raise (Exn OSError (lit "[Errno 36] File name too long: '"
                                ++ repeat 97%N 300 ++ lit "'")))
  /\ issubclass OSError FileNotFoundError = false.
Proof. split; vm_compute; reflexivity. Qed.

(** ** images.py: the file name [Image.save] writes to *)

Section FilenameProperties.

Import Images.

Lemma splitext_app (p : pystr) :
  (OsPath.splitext p).1 ++ (OsPath.splitext p).2 = p.
Proof.
  unfold OsPath.splitext.
  destruct (_ <? _)%Z; [|apply app_nil_r].
  destruct (forallb _ _); [apply app_nil_r|]. apply take_drop.
Qed.

Lemma length_slice_to_short {A} (l : list A) (k : Z) :
  (0 <= k <= len l)%Z -> len (slice_to l k) = k.
Proof.
  intros Hk. unfold slice_to, len in *.
  rewrite (proj2 (Z.leb_le 0 k)) by lia. rewrite length_take. lia.
Qed.

(** As long as the extension leaves room for it (at most 254 characters),
    the length check cuts an over-long name down to 254 characters and keeps
    the extension at the end. *)
Lemma truncate_filename_bounded (filename : pystr) :
  (max_len < len filename)%Z ->
  (len (OsPath.splitext filename).2 <= max_len - 1)%Z ->
  len (truncate_filename filename) = (max_len - 1)%Z /\
  exists stem, truncate_filename filename = stem ++ (OsPath.splitext filename).2.
Proof.
  intros Hlong Hext. unfold truncate_filename.
  rewrite (proj2 (Z.ltb_lt _ _) Hlong).
  pose proof (splitext_app filename) as Happ.
  destruct (OsPath.splitext filename) as [name ext]. simpl in *.
  split; [|eauto].
  assert (len name + len ext = len filename)%Z as Hlen.
  { unfold len. rewrite <- Happ, length_app. lia. }
  unfold len in *. rewrite length_app.
  pose proof (length_slice_to_short name (max_len - Z.of_nat (length ext) - 1)) as Hs.
  unfold len in Hs. unfold max_len in *. lia.
Qed.

(** A name that is short enough is left alone. *)
Lemma truncate_filename_short (filename : pystr) :
  (len filename <= max_len)%Z -> truncate_filename filename = filename.
Proof.
  intros Hshort. unfold truncate_filename.
  now rewrite (proj2 (Z.ltb_ge _ _) Hshort).
Qed.

(** The class of the pattern has eight members; the backslash (92) is not
    one of them, it only escapes the bar. *)
Lemma unsafe_class_members :
  unsafe_class = [60; 62; 58; 34; 47; 124; 63; 42]%N /\ 92%N ∉ unsafe_class.
Proof. split; [reflexivity|]. apply (bool_decide_unpack _). vm_compute. exact I. Qed.

(** [sanitize] keeps the length, turns every member of the class into an
    underscore and leaves every other character as it is. *)
Lemma sanitize_spec (s : pystr) :
  length (sanitize s) = length s /\
  forall i c, s !! i = Some c ->
    sanitize s !! i = Some (if decide (c ∈ unsafe_class) then 95%N else c).
Proof.
  unfold sanitize. split; [apply length_fmap|].
  intros i c Hc. now rewrite list_lookup_fmap, Hc.
Qed.

Lemma sanitize_clean (s : pystr) (c : N) :
  c ∈ sanitize s -> c ∉ unsafe_class.
Proof.
  unfold sanitize. rewrite list_elem_of_fmap. intros (x & -> & _).
  destruct (decide (x ∈ unsafe_class)); [|assumption].
  apply (bool_decide_unpack _). vm_compute. exact I.
Qed.

Lemma slice_to_subset {A} (l : list A) (k : Z) (x : A) :
  x ∈ slice_to l k -> x ∈ l.
Proof. unfold slice_to. destruct (0 <=? k)%Z; apply subseteq_take. Qed.

(** The length check introduces no character. *)
Lemma truncate_filename_subset (filename : pystr) (c : N) :
  c ∈ truncate_filename filename -> c ∈ filename.
Proof.
  unfold truncate_filename. destruct (max_len <? len filename)%Z; [|auto].
  pose proof (splitext_app filename) as Happ.
  destruct (OsPath.splitext filename) as [name ext]. simpl in Happ.
  intros H. rewrite <- Happ. apply elem_of_app.
  apply elem_of_app in H as [H|H]; [left; now apply slice_to_subset in H | now right].
Qed.

Example splitext_examples :
  OsPath.splitext (lit "archive.tar.gz") = (lit "archive.tar", lit ".gz") /\
  OsPath.splitext (lit ".bashrc") = (lit ".bashrc", []) /\
  OsPath.splitext (lit "dir.d/readme") = (lit "dir.d/readme", []) /\
  OsPath.basename (lit "/files/a.png") = lit "a.png".
Proof. repeat split; reflexivity. Qed.

Example slice_to_examples :
  slice_to (lit "abcdef") 4 = lit "abcd" /\
  slice_to (lit "abcdef") (-2) = lit "abcd" /\
  slice_to (lit "a") (-47) = [].
Proof. repeat split; reflexivity. Qed.

Example issubclass_examples :
  issubclass FileNotFoundError OSError = true /\
  issubclass HTTPError OSError = true /\
  issubclass JSONDecodeError FileNotFoundError = false /\
  issubclass KeyError ValueError = false.
Proof. repeat split; reflexivity. Qed.

End FilenameProperties.

(** ** images.py: [Image.save] and [GeneratedImage] *)

Section SaveProperties.

Import Images.

Variable unquoted_path : pystr -> result pystr.
Variable new_Path : pystr -> result unit.
Variable http_get : session -> pystr -> result response.
Variable raise_for_status : response -> result unit.
Variable fs_mkdir : pystr -> result unit.
Variable fs_write : pystr -> pystr -> list N -> result unit.
Variable fs_resolve : pystr -> pystr -> pystr.
Variable draw1 draw2 : Z.

Local Abbreviation initial_filename :=
  (Images.initial_filename unquoted_path draw1).
Local Abbreviation drew_fallback := (Images.drew_fallback unquoted_path).
Local Abbreviation validate_filename :=
  (Images.validate_filename new_Path draw1 draw2).
Local Abbreviation download :=
  (Images.download http_get raise_for_status fs_mkdir fs_write fs_resolve).
Local Abbreviation save :=
  (Images.save unquoted_path new_Path http_get raise_for_status fs_mkdir
     fs_write fs_resolve draw1 draw2).

Lemma on_error_raises {A} (dest_bound : bool) (e : pyexn) :
  exists e', @on_error A dest_bound e = Raise e'.
Proof.
  unfold on_error.
  repeat match goal with
         | |- context [if ?b then _ else _] => destruct b
         end; eauto.
Qed.

Lemma download_actions (self : Image) (path filename : pystr)
    (cookies : option (gmap pystr pystr)) :
  Forall (download_action self path filename cookies)
         (trace (download self path filename cookies)).
Proof.
  unfold Images.download, try_except, mbind, io_bind, perform, lift, mret, io_ret.
  cbn.
  assert (forall evs, (forall ev, ev ∈ evs -> download_action self path filename cookies ev) ->
            Forall (download_action self path filename cookies) evs) as Hall
    by (intros evs; apply Forall_forall).
  destruct (http_get _ _) as [r|e]; cbn.
  2: { destruct (on_error_raises (A := response) false e) as [e' ->]; cbn.
       apply Hall; intros ev Hev.
       repeat (apply elem_of_cons in Hev as [->|Hev]; [cbn; auto|]); inversion Hev. }
  destruct (raise_for_status r) as [[]|e]; cbn.
  2: { destruct (on_error_raises (A := response) false e) as [e' ->]; cbn.
       apply Hall; intros ev Hev.
       repeat (apply elem_of_cons in Hev as [->|Hev]; [cbn; auto|]); inversion Hev. }
  destruct (fs_mkdir path) as [[]|e]; cbn.
  2: { destruct (on_error_raises (A := response) false e) as [e' ->]; cbn.
       apply Hall; intros ev Hev.
       repeat (apply elem_of_cons in Hev as [->|Hev]; [cbn; auto|]); inversion Hev. }
  destruct (fs_write _ _ _) as [[]|e]; cbn;
    apply Hall; intros ev Hev;
    repeat (apply elem_of_cons in Hev as [->|Hev]; [cbn; auto|]); inversion Hev.
Qed.

(** [save] either skips, fails on the file name, or downloads under the
    validated name. *)
Lemma save_unfold (self : Image) (path : pystr) (filename : option pystr)
    (cookies : option (gmap pystr pystr)) (skip : bool) :
  match validate_filename (initial_filename self filename) skip
          (drew_fallback self filename) with
  | Ok None => save self path filename cookies skip = IO [] (Ok None)
  | Ok (Some name) =>
      trace (save self path filename cookies skip)
      = trace (download self path name cookies)
  | Raise e => save self path filename cookies skip = IO [] (Raise e)
  end.
Proof.
  unfold Images.save. cbv zeta.
  destruct (validate_filename _ _ _) as [[name|]|e]; try reflexivity.
  unfold mbind, io_bind, lift. cbn.
  destruct (outcome (download _ _ _ _)); cbn; now rewrite ?app_nil_r.
Qed.

(** Skipping: when [Path(filename)] raises [OSError] or [ValueError] and
    [skip_invalid_filename] is set, [save] returns [None] and does nothing. *)
Lemma save_skips_invalid_filename (self : Image) (path : pystr)
    (filename : option pystr) (cookies : option (gmap pystr pystr)) (e : pyexn) :
  new_Path (initial_filename self filename) = Raise e ->
  issubclass (exc_type e) OSError || issubclass (exc_type e) ValueError = true ->
  save self path filename cookies true = IO [] (Ok None).
Proof.
  intros Hpath Hcls.
  pose proof (save_unfold self path filename cookies true) as H.
  unfold Images.validate_filename in H. now rewrite Hpath, Hcls in H.
Qed.

(** The name [save] writes to is the initial name after the length check. *)
Lemma save_writes_under (self : Image) (path : pystr) (filename : option pystr)
    (cookies : option (gmap pystr pystr)) (skip : bool) (d f : pystr)
    (content : list N) :
  new_Path (initial_filename self filename) = Ok () ->
  WriteBytes d f content ∈ trace (save self path filename cookies skip) ->
  f = truncate_filename (initial_filename self filename).
Proof.
  intros Hpath Hin.
  pose proof (save_unfold self path filename cookies skip) as H.
  unfold Images.validate_filename in H. rewrite Hpath in H. rewrite H in Hin.
  pose proof (download_actions self path
                (truncate_filename (initial_filename self filename)) cookies) as Hall.
  rewrite Forall_forall in Hall. apply Hall in Hin. now destruct Hin.
Qed.

(** Every request of [save] is made by a session with the [cookies] given. *)
Lemma save_requests_use_cookies (self : Image) (path : pystr)
    (filename : option pystr) (cookies : option (gmap pystr pystr)) (skip : bool)
    (s : session) (u : pystr) :
  HttpGet s u ∈ trace (save self path filename cookies skip) ->
  s_cookies s = cookies /\ u = url self.
Proof.
  intros Hin.
  pose proof (save_unfold self path filename cookies skip) as H.
  destruct (validate_filename _ _ _) as [[name|]|e].
  - rewrite H in Hin.
    pose proof (download_actions self path name cookies) as Hall.
    rewrite Forall_forall in Hall. apply Hall in Hin. destruct Hin as [-> ->]. auto.
  - rewrite H in Hin. inversion Hin.
  - rewrite H in Hin. inversion Hin.
Qed.

(** X19. Where the extension leaves room (at most 254 characters), a name
    of more than 255 characters is cut down: the name written to has 254
    characters and ends in the extension of the initial name. *)
Lemma save_truncates_when_extension_fits (self : Image) (path : pystr)
    (filename : option pystr) (cookies : option (gmap pystr pystr)) (skip : bool)
    (d f : pystr) (content : list N) :
  new_Path (initial_filename self filename) = Ok () ->
  (max_len < len (initial_filename self filename))%Z ->
  (len (OsPath.splitext (initial_filename self filename)).2 <= max_len - 1)%Z ->
  WriteBytes d f content ∈ trace (save self path filename cookies skip) ->
  len f = (max_len - 1)%Z /\
  exists stem, f = stem ++ (OsPath.splitext (initial_filename self filename)).2.
Proof.
  intros Hpath Hlong Hext Hin.
  rewrite (save_writes_under _ _ _ _ _ _ _ _ Hpath Hin).
  now apply truncate_filename_bounded.
Qed.

(** X20. A name derived from the URL (its path has a basename) and written
    to has none of the eight characters of the class of the pattern:
    less-than, greater-than, colon, double quote, slash, bar, question mark
    and star. *)
Lemma save_derived_name_clean (self : Image) (path p : pystr)
    (cookies : option (gmap pystr pystr)) (skip : bool)
    (d f : pystr) (content : list N) (c : N) :
  unquoted_path (url self) = Ok p ->
  OsPath.basename p <> [] ->
  new_Path (initial_filename self None) = Ok () ->
  WriteBytes d f content ∈ trace (save self path None cookies skip) ->
  c ∈ f -> c ∉ unsafe_class.
Proof.
  intros Hurl Hbase Hpath Hin Hc.
  rewrite (save_writes_under _ _ _ _ _ _ _ _ Hpath Hin) in Hc.
  apply truncate_filename_subset in Hc.
  unfold Images.initial_filename, Images.derive_filename in Hc. rewrite Hurl in Hc.
  destruct (0 <? len (sanitize (OsPath.basename p)))%Z eqn:Hlen.
  - now apply sanitize_clean in Hc.
  - exfalso. apply Z.ltb_ge in Hlen. unfold len, sanitize in Hlen.
    rewrite length_fmap in Hlen. destruct (OsPath.basename p); [congruence|].
    simpl in Hlen. lia.
Qed.

End SaveProperties.

Section GeneratedImageProperties.

Import Images.

Variable unquoted_path : pystr -> result pystr.
Variable new_Path : pystr -> result unit.
Variable http_get : session -> pystr -> result response.
Variable raise_for_status : response -> result unit.
Variable fs_mkdir : pystr -> result unit.
Variable fs_write : pystr -> pystr -> list N -> result unit.
Variable fs_resolve : pystr -> pystr -> pystr.
Variable draw1 draw2 : Z.
Variable str_lower : pystr -> pystr.
Variable now_stamp : pystr.

Local Abbreviation generated_save :=
  (Images.generated_save unquoted_path new_Path http_get raise_for_status
     fs_mkdir fs_write fs_resolve draw1 draw2 str_lower now_stamp).

Lemma omap_str_of_pyval_fmap (d : gmap pystr pystr) :
  omap str_of_pyval (PyStr <$> d) = d.
Proof.
  apply map_eq. intros k. rewrite lookup_omap, lookup_fmap.
  now destruct (d !! k).
Qed.

Lemma py_truthy_dict (d : gmap pystr pyval) :
  py_truthy (PyDict d) = false <-> d = ∅.
Proof.
  simpl. rewrite <- map_to_list_empty_iff.
  destruct (map_to_list d); split; congruence.
Qed.

Lemma new_GeneratedImage_Ok (img : Image) (v : pyval) (g : GeneratedImage) :
  new_GeneratedImage img v = Ok g ->
  image g = img /\ as_str_dict v = Some (cookies g) /\ cookies g <> ∅.
Proof.
  unfold new_GeneratedImage.
  destruct (as_str_dict v) as [d|]; [|discriminate].
  unfold validate_cookies.
  destruct (py_truthy (PyDict (PyStr <$> d))) eqn:Htruthy; cbn; [|discriminate].
  rewrite omap_str_of_pyval_fmap.
  destruct (forallb _ _); [|discriminate].
  intros [= <-]. cbn. repeat split.
  intros ->. rewrite fmap_empty in Htruthy. discriminate.
Qed.

Lemma new_GeneratedImage_rejects (img : Image) (v : pyval) :
  py_truthy v = false \/ is_dict v = false ->
  exists msg, new_GeneratedImage img v = Raise (Exn ValidationError msg).
Proof.
  intros Hbad. unfold new_GeneratedImage.
  destruct (as_str_dict v) as [d|] eqn:Hd; [|eauto].
  destruct v as [| | | | | |d0]; try discriminate.
  destruct Hbad as [Hfalsy|Hnodict]; [|discriminate].
  apply py_truthy_dict in Hfalsy as ->. cbn in Hd.
  rewrite map_to_list_empty in Hd. cbn in Hd. rewrite omap_empty in Hd.
  injection Hd as <-. rewrite fmap_empty. eauto.
Qed.

(** C10. Constructing a [GeneratedImage] with a [cookies] value that is
    empty (falsy) or not a dictionary fails with pydantic's validation
    error, a [ValueError]; a [GeneratedImage] that was constructed carries
    the dictionary it was given, which is not empty; and
    [GeneratedImage.save] hands exactly these cookies to [Image.save]: every
    request it makes is made by a session with the cookies of the image. *)
Theorem generated_image_cookies (img : Image) (v : pyval) (kw : kwargs) :
  (py_truthy v = false \/ is_dict v = false ->
   exists e, new_GeneratedImage img v = Raise e /\
             issubclass (exc_type e) ValueError = true) /\
  (forall g, new_GeneratedImage img v = Ok g ->
     as_str_dict v = Some (cookies g) /\ cookies g <> ∅ /\
     (forall s u, HttpGet s u ∈ trace (generated_save g kw) ->
        s_cookies s = Some (cookies g)) /\
     (kw_cookies kw = None -> kw_other kw = [] ->
      generated_save g kw
      = save unquoted_path new_Path http_get raise_for_status fs_mkdir
          fs_write fs_resolve draw1 draw2 (image g)
          (default (lit "downloaded_images") (kw_path kw))
          (default (Some (default_filename str_lower now_stamp g)) (kw_filename kw))
          (Some (cookies g))
          (default true (kw_skip_invalid_filename kw)))).
Proof.
  split.
  - intros Hbad. destruct (new_GeneratedImage_rejects img v Hbad) as [msg ->].
    eexists. split; reflexivity.
  - intros g Hg. apply new_GeneratedImage_Ok in Hg as (_ & Hdict & Hne).
    split; [exact Hdict|]. split; [exact Hne|]. split.
    + intros s u. unfold Images.generated_save.
      destruct (kw_cookies kw); [intros Hin; inversion Hin|].
      destruct (kw_other kw); [|intros Hin; inversion Hin].
      intros Hin. now apply save_requests_use_cookies in Hin.
    + intros Hc Ho. unfold Images.generated_save. rewrite Hc, Ho.
      now destruct (kw_filename kw).
Qed.

End GeneratedImageProperties.


Lemma generated_image_cookies_witness :
  (exists e, Images.new_GeneratedImage
               (DemoImages.image_at (lit "https://example.com/g/1.png")) (PyDict ∅)
             = Raise e /\ issubclass (exc_type e) ValueError = true) /\
  (exists e, Images.new_GeneratedImage
               (DemoImages.image_at (lit "https://example.com/g/1.png")) (PyStr (lit "sid=1"))
             = Raise e /\ issubclass (exc_type e) ValueError = true) /\
  (Images.cookies DemoImages.generated <> ∅ /\
   forall s u, HttpGet s u ∈ trace (DemoImages.generated_save DemoImages.generated
                                      DemoImages.no_kwargs) ->
               s_cookies s = Some (Images.cookies DemoImages.generated)).
Proof.
  split; [|split].
  - apply (generated_image_cookies DemoImages.unquoted_path DemoImages.new_Path
             DemoImages.http_get DemoImages.raise_for_status DemoImages.fs_mkdir
             DemoImages.fs_write DemoImages.fs_resolve 4242 1717 ascii_lower []
             (DemoImages.image_at (lit "https://example.com/g/1.png")) (PyDict ∅)
             DemoImages.no_kwargs).
    left. reflexivity.
  - apply (generated_image_cookies DemoImages.unquoted_path DemoImages.new_Path
             DemoImages.http_get DemoImages.raise_for_status DemoImages.fs_mkdir
             DemoImages.fs_write DemoImages.fs_resolve 4242 1717 ascii_lower []
             (DemoImages.image_at (lit "https://example.com/g/1.png"))
             (PyStr (lit "sid=1")) DemoImages.no_kwargs).
    right. reflexivity.
  - destruct (generated_image_cookies DemoImages.unquoted_path DemoImages.new_Path
                DemoImages.http_get DemoImages.raise_for_status DemoImages.fs_mkdir
                DemoImages.fs_write DemoImages.fs_resolve 4242 1717 ascii_lower
                (lit "20250101120000")
                (DemoImages.image_at (lit "https://example.com/g/1.png"))
                (PyDict (PyStr <$> DemoImages.client_cookies))
                DemoImages.no_kwargs) as [_ Hok].
    destruct (Hok DemoImages.generated) as (_ & Hne & Huse & _).
    + vm_compute. reflexivity.
    + split; [exact Hne | exact Huse].
Defined.

(** ** The two places where [Image.save] misses its purpose *)

Example save_512_character_filename :
  exists stem,
    trace (DemoImages.save_default DemoImages.long_name_url)
    = [HttpGet (Session None None (lit "chrome110") None) DemoImages.long_name_url;
       Mkdir (lit "downloaded_images");
       WriteBytes (lit "downloaded_images") (stem ++ lit ".png") []] /\
    len (stem ++ lit ".png") = 254%Z.
Proof. exists (repeat 97%N 250). vm_compute. split; reflexivity. Qed.

(** C5, failing input. For the URL [https://example.com/img/a.bbb...b]
    (three hundred [b]) the derived file name has 302 characters, of which
    301 are the extension; the length check computes a negative bound for
    the stem and the name saved under is the whole extension, 301
    characters, more than [max_len]. *)
Theorem save_long_extension_exceeds_max_len :
  trace (DemoImages.save_default DemoImages.long_extension_url)
  = [HttpGet (Session None None (lit "chrome110") None) DemoImages.long_extension_url;
     Mkdir (lit "downloaded_images");
     WriteBytes (lit "downloaded_images") (lit "." ++ repeat 98%N 300) []] /\
  len (lit "." ++ repeat 98%N 300) = 301%Z /\
  (Images.max_len < 301)%Z.
Proof. vm_compute. repeat split; reflexivity. Qed.

(** C6, failing input. For the URL [https://example.com/files/a\b.png] the
    basename of the path is [a\b.png] (with [posixpath]); the backslash is
    not in the class of the pattern, and the name saved under still has
    it. *)
Theorem save_keeps_backslash :
  trace (DemoImages.save_default (lit "https://example.com/files/a\b.png"))
  = [HttpGet (Session None None (lit "chrome110") None)
       (lit "https://example.com/files/a\b.png");
     Mkdir (lit "downloaded_images");
     WriteBytes (lit "downloaded_images") (lit "a\b.png") []] /\
  92%N ∈ lit "a\b.png" /\
  Images.sanitize (lit "a<b>c:d|e?f*g\h") = lit "a_b_c_d_e_f_g\h".
Proof.
  split; [vm_compute; reflexivity|].
  split; [|vm_compute; reflexivity].
  apply (bool_decide_unpack _). vm_compute. exact I.
Qed.

(** The second half of C6 holds: with skipping enabled, a name that [Path]
    rejects makes [save] return [None] without any action. *)
Example save_rejecting_returns_None :
  DemoImages.save_rejecting (lit "https://example.com/files/a.png") = IO [] (Ok None).
Proof. reflexivity. Qed.

(** ** The session engine *)

Section SendProperties.

Import SessionEngine.

Variable generate_reply : nat -> OutboundRequest -> GenerateReply.
Variable rotate_reply : nat -> Credentials -> option Credentials.
Variable decode : pystr -> option DecodedResult.

Local Abbreviation proactive_rotation := (SessionEngine.proactive_rotation rotate_reply).
Local Abbreviation send := (SessionEngine.send generate_reply rotate_reply decode).

Lemma proactive_rotation_calls (store : CookieStore) (elapsed : Z) :
  generate_calls (proactive_rotation store elapsed).1.1 = 0%nat.
Proof.
  unfold SessionEngine.proactive_rotation.
  destruct (is_stale store elapsed); [|reflexivity].
  destruct (rotate_reply 0 _); reflexivity.
Qed.

Lemma generate_calls_app (xs ys : list call) :
  generate_calls (xs ++ ys) = (generate_calls xs + generate_calls ys)%nat.
Proof. unfold generate_calls. now rewrite List.filter_app, length_app. Qed.

Lemma rotate_calls_app (xs ys : list call) :
  rotate_calls (xs ++ ys) = (rotate_calls xs + rotate_calls ys)%nat.
Proof. unfold rotate_calls. now rewrite List.filter_app, length_app. Qed.

(** C2, amended. Let the turn reach its first generate call (the model resolves and
    is available), after the calls [before] of the proactive step, and let
    the reply to that call be an authentication failure. Then [send] makes
    exactly one more rotate call. If that rotation is rejected the turn ends
    in [AuthError] without a retry; if it succeeds the same request (same
    prompt, attachments, model and state, with the fresh credentials) is
    sent exactly once more, and if the reply to it is an authentication
    failure again the turn ends in [AuthError]. In every case the turn has
    at most two generate calls. *)
Theorem send_rotates_once_retries_once (store : CookieStore) (elapsed : Z)
    (advanced_tier : bool) (prompt : pystr) (attachments : list pystr)
    (model_name : pystr) (state : ConversationState) (model : Model.t) :
  Model.from_name model_name = Ok model ->
  Model.advanced_only model && negb advanced_tier = false ->
  let before := (proactive_rotation store elapsed).1.1 in
  let store0 := (proactive_rotation store elapsed).1.2 in
  let rotations := (proactive_rotation store elapsed).2 in
  let request :=
    build_generate prompt attachments model state (credentials store0) in
  generate_reply 0 request = AuthFailure ->
  let turn := send store elapsed advanced_tier prompt attachments model_name state in
  rotate_calls (calls turn) = S (rotate_calls before) /\
  (generate_calls (calls turn) <= 2)%nat /\
  match rotate_reply rotations (credentials store0) with
  | None =>
      calls turn = before ++ [CallGenerate request; CallRotate (credentials store0)] /\
      result_of turn = inl AuthError
  | Some fresh =>
      let retry := build_generate prompt attachments model state fresh in
      calls turn = before ++ [CallGenerate request; CallRotate (credentials store0);
                              CallGenerate retry] /\
      generate_calls (calls turn) = 2%nat /\
      (generate_reply 1 retry = AuthFailure -> result_of turn = inl AuthError)
  end.
Proof.
  intros Hmodel Havail before store0 rotations request Hauth turn.
  pose proof (proactive_rotation_calls store elapsed) as Hgen0.
  subst turn. unfold SessionEngine.send. rewrite Hmodel, Havail.
  subst before store0 rotations request.
  destruct (proactive_rotation store elapsed) as [[before store0] rotations].
  cbn [fst snd] in *. rewrite Hauth.
  destruct (rotate_reply rotations (credentials store0)) as [fresh|];
    [destruct (generate_reply 1 _) eqn:Hretry; [| |unfold finish; destruct (decode raw)]|];
    cbn [calls result_of fail]; rewrite <- ?app_assoc;
    rewrite ?rotate_calls_app, ?generate_calls_app, ?Hgen0;
    cbn; repeat split; auto; try lia; discriminate.
Qed.

End SendProperties.


Lemma send_rotates_once_retries_once_witness :
  SessionEngine.rotate_calls (SessionEngine.calls DemoEngine.turn) = 1%nat /\
  SessionEngine.generate_calls (SessionEngine.calls DemoEngine.turn) = 2%nat /\
  SessionEngine.result_of DemoEngine.turn = inl SessionEngine.AuthError.
Proof.
  pose proof (send_rotates_once_retries_once DemoEngine.always_rejected
                DemoEngine.rotation_succeeds DemoEngine.no_decoder DemoEngine.store
                10 false (lit "hello") [] (lit "gemini-2.5-flash")
                SessionEngine.empty Model.G_2_5_FLASH
                eq_refl eq_refl eq_refl) as (Hrot & _ & Hshape).
  change (SessionEngine.send _ _ _ _ _ _ _ _ _ _) with DemoEngine.turn in *.
  destruct Hshape as (_ & Hgen & Hfail).
  split; [exact Hrot|]. split; [exact Hgen|]. apply Hfail. reflexivity.
Defined.

(** C2, as stated, fails in two ways. When the rotation that follows the
    authentication failure is rejected, the turn ends in [AuthError] after
    its one generate call: the request is not retried. When the store is
    stale, the turn that ends in [AuthError] after two rejected generate
    calls has made two rotation attempts, the proactive one and the one that
    follows the failure. *)
Lemma send_rejected_rotation_no_retry :
  (DemoEngine.always_rejected 0
     (SessionEngine.build_generate (lit "hello") [] Model.G_2_5_FLASH SessionEngine.empty
        DemoEngine.old_credentials) = SessionEngine.AuthFailure /\
   SessionEngine.generate_calls (SessionEngine.calls DemoEngine.turn_rotation_rejected) = 1%nat /\
   SessionEngine.rotate_calls (SessionEngine.calls DemoEngine.turn_rotation_rejected) = 1%nat /\
   SessionEngine.result_of DemoEngine.turn_rotation_rejected = inl SessionEngine.AuthError) /\
  (SessionEngine.is_stale DemoEngine.store 7200 = true /\
   SessionEngine.generate_calls (SessionEngine.calls DemoEngine.turn_stale) = 2%nat /\
   SessionEngine.rotate_calls (SessionEngine.calls DemoEngine.turn_stale) = 2%nat /\
   SessionEngine.result_of DemoEngine.turn_stale = inl SessionEngine.AuthError).
Proof. repeat split; vm_compute; reflexivity. Qed.

(* ===================================================================== *)
(** * Further properties of the code                                      *)
(* ===================================================================== *)

(** ** enums.py *)

Section ModelTable.

Import Model.

(** X1. Looking a member up by its own name gives that member back. *)
Theorem from_name_round_trip (m : Model.t) :
  from_name (model_name m) = Ok m.
Proof. destruct m; reflexivity. Qed.

(** X2. For a name that no member has, [Model.from_name] raises
    [ValueError] with a message that repeats the name and lists the names
    of all seven members in the order of definition. *)
Theorem from_name_unknown_message (name : pystr) :
  (forall m, model_name m <> name) ->
  from_name name
  = Raise (Exn ValueError
             (lit "Unknown model name: " ++ name ++ lit ". Available models: "
              ++ lit "unspecified, gemini-2.0-flash, gemini-2.0-flash-thinking, "
              ++ lit "gemini-2.5-flash, gemini-2.5-pro, gemini-2.0-exp-advanced, "
              ++ lit "gemini-2.5-exp-advanced")).
Proof.
  intros Hnone. unfold from_name.
  destruct (from_name_loop name members) as [m|] eqn:Hloop.
  - apply from_name_loop_Some in Hloop as [_ Hm]. now destruct (Hnone m).
  - vm_compute join. reflexivity.
Qed.

(** X3. The header fragments of the models: no two members share a
    fragment, and a fragment never touches a key of the base chat headers,
    so that merging the two dictionaries gives the same headers in either
    order. *)
Theorem model_header_table (m1 m2 : Model.t) :
  (model_header m1 = model_header m2 <-> m1 = m2) /\
  model_header m1 ∪ Headers.value Headers.GEMINI
  = Headers.value Headers.GEMINI ∪ model_header m1 /\
  forall key, is_Some (model_header m1 !! key) <->
              m1 <> UNSPECIFIED /\ key = lit "x-goog-ext-525001261-jspb" /\
              Headers.value Headers.GEMINI !! key = None.
Proof.
  assert (Headers.value Headers.GEMINI !! lit "x-goog-ext-525001261-jspb" = None)
    as Hfree by reflexivity.
  assert (forall m key, is_Some (model_header m !! key) ->
            m <> UNSPECIFIED /\ key = lit "x-goog-ext-525001261-jspb") as Hkey.
  { intros m key [v Hv]. destruct m; simpl in Hv; unfold jspb in Hv;
      try (apply lookup_insert_Some in Hv as [[<- _]|[_ Hv]]; [split; [discriminate|reflexivity]|]);
      now rewrite lookup_empty in Hv. }
  assert (forall m, model_header m ##ₘ Headers.value Headers.GEMINI) as Hdisj.
  { intros m. apply map_disjoint_spec. intros key x y Hx Hy.
    destruct (Hkey m key) as [_ ->]; [eauto|]. rewrite Hfree in Hy. discriminate. }
  split; [|split].
  - split; [|now intros ->]. intros Heq.
    apply (f_equal (fun d => d !! lit "x-goog-ext-525001261-jspb")) in Heq.
    destruct m1, m2; first [reflexivity | now vm_compute in Heq].
  - apply map_union_comm, Hdisj.
  - intros key. split.
    + intros Hsome. destruct (Hkey m1 key Hsome) as [Hm ->]. auto.
    + intros (Hm & -> & _). destruct m1; first [now destruct Hm | eexists; reflexivity].
Qed.

End ModelTable.

Lemma from_name_unknown_message_witness :
  exists msg, Model.from_name (lit "gemini-9") = Raise (Exn ValueError msg).
Proof.
  eexists. apply from_name_unknown_message.
  intros m. destruct m; intros H; now vm_compute in H.
Defined.

(** ** utils.py: more on [load_cookies] *)

Section LoadCookiesMore.

Import Utils.

Variable str_upper : pystr -> pystr.
Variable fs_open : pystr -> result pystr.
Variable json_load : pystr -> result pyval.

Local Abbreviation name_matches := (Utils.name_matches str_upper).
Local Abbreviation next_value := (Utils.next_value str_upper).
Local Abbreviation first_value := (Utils.first_value str_upper).
Local Abbreviation load_cookies := (Utils.load_cookies str_upper fs_open json_load).
Local Abbreviation named := (Utils.named str_upper).
Local Abbreviation contains_cookie := (Utils.contains_cookie str_upper).
Local Abbreviation earliest_cookie := (Utils.earliest_cookie str_upper).
Local Abbreviation stop_value := (Utils.stop_value str_upper).

Lemma load_cookies_loaded (path file : pystr) (cookies : pyval) :
  fs_open path = Ok file -> json_load file = Ok cookies ->
  load_cookies path =
    match first_value PSID cookies with
    | Raise e => load_cookies_except path e
    | Ok a =>
        match first_value PSIDTS cookies with
        | Raise e => load_cookies_except path e
        | Ok b =>
            if py_truthy a && py_truthy b then Ok (a, b)
            else Raise required_cookies_error
        end
    end.
Proof.
  intros Hopen Hload. unfold Utils.load_cookies, Utils.load_cookies_try.
  rewrite Hopen. cbn. rewrite Hload. cbn.
  destruct (first_value PSID cookies) as [a|]; [cbn|reflexivity].
  destruct (first_value PSIDTS cookies) as [b|]; [cbn|reflexivity].
  destruct (py_truthy a), (py_truthy b); reflexivity.
Qed.

Lemma lookup_error_unexpected (path : pystr) (e : pyexn) :
  lookup_error e -> load_cookies_except path e = Raise (unexpected e).
Proof.
  unfold load_cookies_except. now intros [-> | [-> | ->]].
Qed.

Lemma py_getitem_error (v : pyval) (key : pystr) (e : pyexn) :
  py_getitem v key = Raise e -> lookup_error e.
Proof.
  unfold lookup_error.
  destruct v as [| | | | | |d]; simpl; try (intros [= <-]; simpl; auto).
  destruct (d !! key); [discriminate|]. intros [= <-]; simpl; auto.
Qed.

Lemma name_matches_error (target : pystr) (item : pyval) (e : pyexn) :
  name_matches target item = Raise e -> lookup_error e.
Proof.
  unfold Utils.name_matches.
  destruct (py_getitem item (lit "name")) as [name|e'] eqn:Hget; cbn.
  - destruct name; intros [= <-]; unfold lookup_error; simpl; auto.
  - intros [= <-]. now apply py_getitem_error in Hget.
Qed.

(** X4. A cookie file whose top-level JSON value is not an array never
    yields credentials: whatever the value is, [load_cookies] raises. An
    empty object and an empty string count as a list without cookies. *)
Theorem load_cookies_rejects_non_list (path file : pystr) (cookies : pyval) :
  fs_open path = Ok file ->
  json_load file = Ok cookies ->
  (forall items, cookies <> PyList items) ->
  exists e, load_cookies path = Raise e /\
            (e = required_cookies_error <->
             cookies = PyStr [] \/ cookies = PyDict ∅) /\
            (e <> required_cookies_error -> exists e', lookup_error e' /\ e = unexpected e').
Proof.
  intros Hopen Hload Hnolist.
  rewrite (load_cookies_loaded _ _ _ Hopen Hload).
  assert (forall e', unexpected e' <> required_cookies_error) as Hne.
  { intros e' H. apply (f_equal exc_str) in H. apply (f_equal (fun s => s !! 0%nat)) in H.
    now vm_compute in H. }
  assert (forall item items target,
            (exists s, item = PyStr s) ->
            exists e', first_value target (PyList (item :: items)) = Raise e'
                       /\ lookup_error e') as Hfirst.
  { intros item items target [s ->]. eexists. split; [reflexivity|].
    unfold lookup_error. simpl. auto. }
  destruct cookies as [| | | |s|items|d].
  - eexists. split; [reflexivity|]. split; [|intros _; eexists; split; [|reflexivity]; right; left; reflexivity].
    split; [intros H; now destruct (Hne _ H) | intros [|]; discriminate].
  - eexists. split; [reflexivity|]. split; [|intros _; eexists; split; [|reflexivity]; right; left; reflexivity].
    split; [intros H; now destruct (Hne _ H) | intros [|]; discriminate].
  - eexists. split; [reflexivity|]. split; [|intros _; eexists; split; [|reflexivity]; right; left; reflexivity].
    split; [intros H; now destruct (Hne _ H) | intros [|]; discriminate].
  - eexists. split; [reflexivity|]. split; [|intros _; eexists; split; [|reflexivity]; right; left; reflexivity].
    split; [intros H; now destruct (Hne _ H) | intros [|]; discriminate].
  - destruct s as [|c s].
    + eexists. split; [reflexivity|]. split; [split; auto|]. intros H. now destruct H.
    + eexists. split; [reflexivity|].
      split; [|intros _; eexists; split; [|reflexivity]; right; left; reflexivity].
      split; [intros H; now destruct (Hne _ H) | intros [|]; discriminate].
  - now destruct (Hnolist items).
  - unfold Utils.first_value. cbn.
    destruct (map_to_list d) as [|[k v] kvs] eqn:Hd.
    + apply map_to_list_empty_iff in Hd as ->.
      eexists. split; [reflexivity|]. split; [split; auto|]. intros H. now destruct H.
    + eexists. split; [reflexivity|].
      split; [|intros _; eexists; split; [|reflexivity]; right; left; reflexivity].
      split; [intros H; now destruct (Hne _ H)|].
      intros [|[= ->]]; [discriminate|]. now rewrite map_to_list_empty in Hd.
Qed.

Lemma next_value_stops (target : pystr) (items junk : list pyval)
    (cs : list (pystr * pyval)) (v : pyval) :
  cookie_list items = Some cs ->
  stop_value target cs = Some v ->
  next_value target (items ++ junk) = Ok v.
Proof.
  unfold cookie_list. rewrite mapM_Some.
  induction 1 as [|item [n w] items cs Hc _ IH]; [discriminate|].
  destruct (as_cookie_Some str_upper _ _ _ target Hc) as [Hm Hv].
  cbn [app Utils.next_value Utils.stop_value]. rewrite Hm. cbn.
  destruct (decide (str_upper n = target)) as [Heq|Hne].
  - rewrite bool_decide_eq_true_2 by exact Heq. now intros [= <-].
  - rewrite bool_decide_eq_false_2 by exact Hne. exact IH.
Qed.

Lemma next_value_passes (target : pystr) (items rest : list pyval)
    (cs : list (pystr * pyval)) :
  cookie_list items = Some cs ->
  stop_value target cs = None ->
  next_value target (items ++ rest) = next_value target rest.
Proof.
  unfold cookie_list. rewrite mapM_Some.
  induction 1 as [|item [n w] items cs Hc _ IH]; [reflexivity|].
  destruct (as_cookie_Some str_upper _ _ _ target Hc) as [Hm Hv].
  cbn [app Utils.next_value Utils.stop_value]. rewrite Hm. cbn.
  destruct (decide (str_upper n = target)) as [Heq|Hne]; [discriminate|].
  rewrite bool_decide_eq_false_2 by exact Hne. exact IH.
Qed.

(** X5. The generators stop at their first match: once the list has shown
    the earliest entry of each required name, whatever follows (further
    cookies or values that are no cookies at all) is not looked at and
    changes nothing. *)
Theorem load_cookies_ignores_what_follows (path file : pystr)
    (items junk : list pyval) (cs : list (pystr * pyval)) (a b : pyval) :
  fs_open path = Ok file ->
  json_load file = Ok (PyList (items ++ junk)) ->
  cookie_list items = Some cs ->
  earliest_cookie PSID a cs ->
  earliest_cookie PSIDTS b cs ->
  load_cookies path =
    if py_truthy a && py_truthy b then Ok (a, b) else Raise required_cookies_error.
Proof.
  intros Hopen Hload Hcs Ha Hb.
  rewrite (load_cookies_loaded _ _ _ Hopen Hload).
  apply stop_value_earliest in Ha, Hb.
  unfold Utils.first_value. cbn.
  now rewrite (next_value_stops _ _ junk _ _ Hcs Ha), (next_value_stops _ _ junk _ _ Hcs Hb).
Qed.

(** X6. An entry that cannot be read as a cookie (not an object, no [name],
    a [name] that is not a string) in front of the first entry named
    [__Secure-1PSID] makes [load_cookies] fail with the unexpected-error
    message built from the exception of the lookup, even if both required
    cookies follow. *)
Theorem load_cookies_malformed_entry_first (path file : pystr)
    (items rest : list pyval) (bad : pyval) (cs : list (pystr * pyval)) (e : pyexn) :
  fs_open path = Ok file ->
  json_load file = Ok (PyList (items ++ bad :: rest)) ->
  cookie_list items = Some cs ->
  (forall c, c ∈ cs -> ~ named PSID c) ->
  name_matches PSID bad = Raise e ->
  load_cookies path = Raise (unexpected e) /\ lookup_error e.
Proof.
  intros Hopen Hload Hcs Hnone Hbad.
  rewrite (load_cookies_loaded _ _ _ Hopen Hload).
  apply stop_value_None in Hnone.
  unfold Utils.first_value. cbn.
  rewrite (next_value_passes _ _ _ _ Hcs Hnone). cbn [Utils.next_value].
  rewrite Hbad. cbn.
  pose proof (name_matches_error _ _ _ Hbad) as Herr.
  split; [now apply lookup_error_unexpected | exact Herr].
Qed.

Lemma cookie_list_elem (items : list pyval) (cs : list (pystr * pyval)) :
  cookie_list items = Some cs ->
  forall c, c ∈ cs <-> exists item, item ∈ items /\ as_cookie item = Some c.
Proof.
  unfold cookie_list. rewrite mapM_Some.
  induction 1 as [|item c0 items cs Hc _ IH]; intros c.
  - split; [intros H; inversion H | intros (item & H & _); inversion H].
  - rewrite elem_of_cons, IH. split.
    + intros [-> | (item' & Hin & Hc')].
      * exists item. split; [left | exact Hc].
      * exists item'. split; [now right | exact Hc'].
    + intros (item' & Hin & Hc'). apply elem_of_cons in Hin as [-> | Hin].
      * left. congruence.
      * right. eauto.
Qed.

Lemma cookie_list_Permutation (items items' : list pyval) (cs : list (pystr * pyval)) :
  items ≡ₚ items' ->
  cookie_list items = Some cs ->
  exists cs', cookie_list items' = Some cs' /\ forall c, c ∈ cs' <-> c ∈ cs.
Proof.
  intros Hperm Hcs.
  assert (is_Some (cookie_list items')) as [cs' Hcs'].
  { apply mapM_is_Some. rewrite <- Hperm. apply mapM_is_Some. eauto. }
  exists cs'. split; [exact Hcs'|]. intros c.
  rewrite (cookie_list_elem _ _ Hcs'), (cookie_list_elem _ _ Hcs).
  split; intros (item & Hin & Hc); exists item; split; auto;
    [now rewrite Hperm | now rewrite <- Hperm].
Qed.

(** X7. The order of the list does not matter when every entry that
    carries a required name has the same non-empty value (in particular
    when each required name occurs once): a file with the same entries in
    any other order gives the same pair. *)
Theorem load_cookies_order_irrelevant (path file path' file' : pystr)
    (items items' : list pyval) (cs : list (pystr * pyval)) (v1 v2 : pystr) :
  fs_open path = Ok file -> json_load file = Ok (PyList items) ->
  fs_open path' = Ok file' -> json_load file' = Ok (PyList items') ->
  items ≡ₚ items' ->
  cookie_list items = Some cs ->
  contains_cookie PSID (PyStr v1) cs -> v1 <> [] ->
  (forall c, c ∈ cs -> named PSID c -> c.2 = PyStr v1) ->
  contains_cookie PSIDTS (PyStr v2) cs -> v2 <> [] ->
  (forall c, c ∈ cs -> named PSIDTS c -> c.2 = PyStr v2) ->
  load_cookies path = Ok (PyStr v1, PyStr v2) /\
  load_cookies path' = Ok (PyStr v1, PyStr v2).
Proof.
  intros Hopen Hload Hopen' Hload' Hperm Hcs H1 Hv1 Hall1 H2 Hv2 Hall2.
  split.
  - now apply (load_cookies_any_order str_upper fs_open json_load path file items cs).
  - destruct (cookie_list_Permutation _ _ _ Hperm Hcs) as (cs' & Hcs' & Hsame).
    apply (load_cookies_any_order str_upper fs_open json_load path' file' items' cs');
      auto.
    + destruct H1 as (n & Hin & Hn). exists n. split; [now apply Hsame | exact Hn].
    + intros c Hc. apply Hall1. now apply Hsame.
    + destruct H2 as (n & Hin & Hn). exists n. split; [now apply Hsame | exact Hn].
    + intros c Hc. apply Hall2. now apply Hsame.
Qed.

End LoadCookiesMore.

(** ** utils.py: more on [upload_file] *)

Section UploadFileMore.

Variable is_file : pystr -> result bool.
Variable read_bytes : pystr -> result (list N).
Variable http_post : session -> pystr -> list N -> result response.
Variable raise_for_status : response -> result unit.

Local Abbreviation upload_file :=
  (Utils.upload_file is_file read_bytes http_post raise_for_status).

Lemma on_upload_error_cases {A} (e : pyexn) :
  @Utils.on_upload_error A e = Raise (reraised e).
Proof.
  unfold Utils.on_upload_error, reraised.
  destruct (issubclass (exc_type e) HTTPError); [reflexivity|].
  now destruct (_ || _).
Qed.

(** What the handlers leave of an exception: itself, unless it is an
    [HTTPError] without a response. *)
Lemma reraised_same (e : pyexn) :
  issubclass (exc_type e) HTTPError = false \/ (exists code, exc_response e = Some code) ->
  reraised e = e.
Proof.
  unfold reraised, log_http_error. intros [-> | [code ->]]; [reflexivity|].
  now destruct (issubclass _ _).
Qed.

(** X8. Given bytes, or the path of a file that can be read, [upload_file]
    makes exactly one request: a POST of exactly these bytes to the upload
    endpoint, by a session with the [Push-ID] headers. It returns a text
    only if the request and the status check succeeded, and then the text
    of that response. An exception of the request or of the status check
    is the exception [upload_file] ends with, with one exception to that:
    for an [HTTPError] that carries no response the handler fails while it
    builds its message, and the call ends with that [AttributeError]. *)
Theorem upload_file_single_post (file : Utils.file_arg) (content : list N)
    (proxy : option proxy_arg) (impersonate : pystr) :
  file = Utils.Bytes content \/
  (exists p, file = Utils.PathLike p /\ is_file p = Ok true /\ read_bytes p = Ok content) ->
  let client := Session None (proxies_dict proxy) impersonate
                  (Some (Headers.value Headers.UPLOAD)) in
  let url := Endpoint.value Endpoint.UPLOAD in
  trace (upload_file file proxy impersonate) = [HttpPost client url content] /\
  (forall text, outcome (upload_file file proxy impersonate) = Ok text ->
     exists r, http_post client url content = Ok r /\
               raise_for_status r = Ok () /\ text = resp_text r) /\
  (forall e, http_post client url content = Raise e \/
             (exists r, http_post client url content = Ok r /\
                        raise_for_status r = Raise e) ->
     outcome (upload_file file proxy impersonate) = Raise (reraised e) /\
     (issubclass (exc_type e) HTTPError = false \/
      (exists code, exc_response e = Some code) ->
      outcome (upload_file file proxy impersonate) = Raise e)) /\
  (forall e', outcome (upload_file file proxy impersonate) = Raise e' ->
     exists e, e' = reraised e /\
       (http_post client url content = Raise e \/
        exists r, http_post client url content = Ok r /\ raise_for_status r = Raise e)).
Proof.
  intros Hfile client url.
  assert (upload_file file proxy impersonate =
          IO [HttpPost client url content]
             match http_post client url content with
             | Raise e => Raise (reraised e)
             | Ok r => match raise_for_status r with
                       | Raise e => Raise (reraised e)
                       | Ok _ => Ok (resp_text r)
                       end
             end) as ->.
  { unfold Utils.upload_file.
    assert (forall m : io (list N), m = IO [] (Ok content) ->
              m ≫= (fun file_content =>
                      try_except
                        (response ← perform (HttpPost client url file_content)
                                      (http_post client url file_content);
                         _ ← lift (raise_for_status response);
                         mret (resp_text response))
                        (fun e => lift (Utils.on_upload_error e)))
              = IO [HttpPost client url content]
                  match http_post client url content with
                  | Raise e => Raise (reraised e)
                  | Ok r => match raise_for_status r with
                            | Raise e => Raise (reraised e)
                            | Ok _ => Ok (resp_text r)
                            end
                  end) as Hrun.
    { intros m ->.
      unfold try_except, mbind, io_bind, perform, lift, mret, io_ret.
      cbn [trace outcome app].
      destruct (http_post client url content) as [r|e]; cbn [trace outcome app];
        [destruct (raise_for_status r); cbn [trace outcome app]|];
        rewrite ?on_upload_error_cases; reflexivity. }
    destruct Hfile as [-> | (p & -> & Hp & Hread)].
    - now apply Hrun.
    - apply Hrun. rewrite Hp. unfold mbind, io_bind, lift.
      cbn [trace outcome app]. now rewrite Hread. }
  cbn [trace outcome].
  split; [reflexivity|]. split; [|split].
  - intros text Hout.
    destruct (http_post client url content) as [r|e] eqn:Hpost; [|discriminate].
    destruct (raise_for_status r) as [[]|e] eqn:Hstatus; [|discriminate].
    injection Hout as <-. exists r. repeat split; assumption.
  - intros e Hfail.
    assert (match http_post client url content with
            | Raise e => Raise (reraised e)
            | Ok r => match raise_for_status r with
                      | Raise e => Raise (reraised e)
                      | Ok _ => Ok (resp_text r)
                      end
            end = Raise (reraised e)) as Hout.
    { destruct Hfail as [-> | (r & -> & ->)]; reflexivity. }
    split; [exact Hout|]. intros Hsame. now rewrite Hout, reraised_same.
  - intros e' Hout.
    destruct (http_post client url content) as [r|e] eqn:Hpost.
    + destruct (raise_for_status r) as [[]|e] eqn:Hstatus; [discriminate|].
      injection Hout as <-. exists e. split; [reflexivity|]. right. now exists r.
    + injection Hout as <-. exists e. split; [reflexivity|]. now left.
Qed.

End UploadFileMore.

(** ** images.py: more on [Image.save] *)

Section SaveMore.

Import Images.

Variable unquoted_path : pystr -> result pystr.
Variable new_Path : pystr -> result unit.
Variable http_get : session -> pystr -> result response.
Variable raise_for_status : response -> result unit.
Variable fs_mkdir : pystr -> result unit.
Variable fs_write : pystr -> pystr -> list N -> result unit.
Variable fs_resolve : pystr -> pystr -> pystr.
Variable draw1 draw2 : Z.

Local Abbreviation initial_filename :=
  (Images.initial_filename unquoted_path draw1).
Local Abbreviation download :=
  (Images.download http_get raise_for_status fs_mkdir fs_write fs_resolve).
Local Abbreviation save :=
  (Images.save unquoted_path new_Path http_get raise_for_status fs_mkdir
     fs_write fs_resolve draw1 draw2).

(** The download, outcome by outcome. *)
Lemma download_cases (self : Image) (path name : pystr)
    (cookies : option (gmap pystr pystr)) :
  let client := client_of self cookies in
  download self path name cookies =
    match http_get client (url self) with
    | Raise e => IO [HttpGet client (url self)] (on_error false e)
    | Ok r =>
        match raise_for_status r with
        | Raise e => IO [HttpGet client (url self)] (on_error false e)
        | Ok _ =>
            match fs_mkdir path with
            | Raise e => IO [HttpGet client (url self); Mkdir path] (on_error false e)
            | Ok _ =>
                IO [HttpGet client (url self); Mkdir path;
                    WriteBytes path name (resp_content r)]
                   match fs_write path name (resp_content r) with
                   | Ok _ => Ok (fs_resolve path name)
                   | Raise e => on_error true e
                   end
            end
        end
    end.
Proof.
  unfold client_of, Images.download, try_except, mbind, io_bind, perform, lift,
    mret, io_ret.
  cbn.
  destruct (http_get _ _) as [r|e]; cbn.
  2: { destruct (on_error_raises (A := response) false e) as [e' He'].
       rewrite He'. cbn. destruct (on_error_raises (A := pystr) false e) as [e'' He''].
       rewrite He''. unfold on_error in He', He''.
       repeat match type of He' with
              | context [if ?b then _ else _] => destruct b
              end; congruence. }
  destruct (raise_for_status r) as [[]|e]; cbn.
  2: { destruct (on_error_raises (A := response) false e) as [e' He'].
       rewrite He'. cbn. destruct (on_error_raises (A := pystr) false e) as [e'' He''].
       rewrite He''. unfold on_error in He', He''.
       repeat match type of He' with
              | context [if ?b then _ else _] => destruct b
              end; congruence. }
  destruct (fs_mkdir path) as [[]|e]; cbn.
  2: { destruct (on_error_raises (A := response) false e) as [e' He'].
       rewrite He'. cbn. destruct (on_error_raises (A := pystr) false e) as [e'' He''].
       rewrite He''. unfold on_error in He', He''.
       repeat match type of He' with
              | context [if ?b then _ else _] => destruct b
              end; congruence. }
  destruct (fs_write _ _ _) as [[]|e]; cbn; [reflexivity|].
  destruct (on_error_raises (A := pystr) true e) as [e' ->]. reflexivity.
Qed.

(** Once [dest] is bound every handler ends the way the handlers of the
    upload do. *)
Lemma on_error_dest_bound {A} (e : pyexn) :
  @on_error A true e = Raise (reraised e).
Proof.
  unfold on_error, reraised.
  repeat match goal with
         | |- context [if ?b then _ else _] => destruct b
         end; reflexivity.
Qed.

Lemma on_error_request {A} (e : pyexn) :
  issubclass (exc_type e) RequestException || issubclass (exc_type e) CurlError
  || negb (issubclass (exc_type e) OSError) = true ->
  @on_error A false e = Raise (reraised e).
Proof.
  unfold on_error, reraised. destruct e as [c s r]. simpl.
  destruct c; simpl; first [reflexivity | discriminate].
Qed.

Lemma on_error_dest_unbound {A} (e : pyexn) :
  issubclass (exc_type e) OSError = true ->
  issubclass (exc_type e) RequestException = false ->
  @on_error A false e
  = Raise (Exn UnboundLocalError
             (lit "cannot access local variable 'dest' where it is not associated with a value")).
Proof.
  unfold on_error. destruct e as [c s r]. simpl.
  destruct c; simpl; first [reflexivity | discriminate].
Qed.

(** With a name that [Path] accepts, [save] is the download under the
    name after the length check, its result wrapped. *)
Lemma save_download (self : Image) (path : pystr) (filename : option pystr)
    (cookies : option (gmap pystr pystr)) (skip : bool) :
  new_Path (initial_filename self filename) = Ok () ->
  save self path filename cookies skip =
    IO (trace (download self path
                 (truncate_filename (initial_filename self filename)) cookies))
       match outcome (download self path
                        (truncate_filename (initial_filename self filename)) cookies) with
       | Ok dest => Ok (Some dest)
       | Raise e => Raise e
       end.
Proof.
  intros Hpath. unfold Images.save, Images.validate_filename. cbv zeta.
  rewrite Hpath.
  unfold mbind, io_bind, lift, mret, io_ret. cbn [trace outcome app].
  destruct (outcome (download _ _ _ _)); cbn [trace outcome app];
    now rewrite ?app_nil_r.
Qed.

(** X9. When the request, the status check and the creation of the
    directory succeed, [save] writes exactly the body of the response, once,
    to the name after the length check in the directory given; it returns
    the resolved path of that file, or ends with the very exception the
    write raised (every exception but an [HTTPError] without a response,
    which a write does not raise and for which the first handler fails
    while it builds its message). *)
Theorem save_writes_response_body (self : Image) (path : pystr)
    (filename : option pystr) (cookies : option (gmap pystr pystr)) (skip : bool)
    (r : response) :
  new_Path (initial_filename self filename) = Ok () ->
  http_get (client_of self cookies) (url self) = Ok r ->
  raise_for_status r = Ok () ->
  fs_mkdir path = Ok () ->
  let name := truncate_filename (initial_filename self filename) in
  save self path filename cookies skip =
    IO [HttpGet (client_of self cookies) (url self); Mkdir path;
        WriteBytes path name (resp_content r)]
       match fs_write path name (resp_content r) with
       | Ok _ => Ok (Some (fs_resolve path name))
       | Raise e => Raise (reraised e)
       end /\
  forall e, fs_write path name (resp_content r) = Raise e ->
    issubclass (exc_type e) HTTPError = false ->
    outcome (save self path filename cookies skip) = Raise e.
Proof.
  intros Hpath Hget Hstatus Hmkdir name.
  enough (save self path filename cookies skip =
    IO [HttpGet (client_of self cookies) (url self); Mkdir path;
        WriteBytes path name (resp_content r)]
       match fs_write path name (resp_content r) with
       | Ok _ => Ok (Some (fs_resolve path name))
       | Raise e => Raise (reraised e)
       end) as Hsave.
  { split; [exact Hsave|]. intros e Hwrite Hcls. rewrite Hsave, Hwrite.
    cbn [outcome]. rewrite reraised_same; auto. }
  rewrite (save_download _ _ _ _ _ Hpath), download_cases. cbv zeta.
  rewrite Hget, Hstatus, Hmkdir. fold name. cbn [trace outcome].
  destruct (fs_write path name (resp_content r)); [reflexivity|].
  now rewrite on_error_dest_bound.
Qed.

(** X10. When the directory cannot be created (an [OSError] that is not a
    request error), the caller does not get that error: the handler for
    [IOError] builds its message from [dest], which is not yet bound, and
    [save] ends with [UnboundLocalError]. Nothing is written. *)
Theorem save_mkdir_failure_is_masked (self : Image) (path : pystr)
    (filename : option pystr) (cookies : option (gmap pystr pystr)) (skip : bool)
    (r : response) (e : pyexn) :
  new_Path (initial_filename self filename) = Ok () ->
  http_get (client_of self cookies) (url self) = Ok r ->
  raise_for_status r = Ok () ->
  fs_mkdir path = Raise e ->
  issubclass (exc_type e) OSError = true ->
  issubclass (exc_type e) RequestException = false ->
  save self path filename cookies skip =
    IO [HttpGet (client_of self cookies) (url self); Mkdir path]
       (Raise (Exn UnboundLocalError
                 (lit "cannot access local variable 'dest' where it is not associated with a value"))).
Proof.
  intros Hpath Hget Hstatus Hmkdir Hos Hreq.
  rewrite (save_download _ _ _ _ _ Hpath), download_cases. cbv zeta.
  rewrite Hget, Hstatus, Hmkdir. cbn [trace outcome].
  now rewrite (on_error_dest_unbound e Hos Hreq).
Qed.

(** X11. When the request or its status check fails with a request error
    ([RequestException], [CurlError]) or with any exception that is not an
    [OSError], [save] ends after the one request and touches neither
    directory nor file. It ends with that very exception, unless that is an
    [HTTPError] without a response: then the handler fails while it builds
    its message, and [save] ends with that [AttributeError]. *)
Theorem save_request_failure_writes_nothing (self : Image) (path : pystr)
    (filename : option pystr) (cookies : option (gmap pystr pystr)) (skip : bool)
    (e : pyexn) :
  new_Path (initial_filename self filename) = Ok () ->
  http_get (client_of self cookies) (url self) = Raise e \/
  (exists r, http_get (client_of self cookies) (url self) = Ok r /\
             raise_for_status r = Raise e) ->
  issubclass (exc_type e) RequestException || issubclass (exc_type e) CurlError
  || negb (issubclass (exc_type e) OSError) = true ->
  save self path filename cookies skip =
    IO [HttpGet (client_of self cookies) (url self)] (Raise (reraised e)) /\
  (issubclass (exc_type e) HTTPError = false \/
   (exists code, exc_response e = Some code) ->
   save self path filename cookies skip =
     IO [HttpGet (client_of self cookies) (url self)] (Raise e)) /\
  (issubclass (exc_type e) HTTPError = true -> exc_response e = None ->
   save self path filename cookies skip =
     IO [HttpGet (client_of self cookies) (url self)]
        (Raise (Exn AttributeError
                  (lit "'NoneType' object has no attribute 'status_code'")))).
Proof.
  intros Hpath Hfail Hcls.
  enough (save self path filename cookies skip =
    IO [HttpGet (client_of self cookies) (url self)] (Raise (reraised e))) as Hsave.
  { split; [exact Hsave|]. split.
    - intros Hsame. now rewrite Hsave, reraised_same.
    - intros Hhttp Hnone. rewrite Hsave. unfold reraised, log_http_error.
      now rewrite Hhttp, Hnone. }
  rewrite (save_download _ _ _ _ _ Hpath), download_cases. cbv zeta.
  destruct Hfail as [Hget | (r & Hget & Hstatus)].
  - rewrite Hget. cbn [trace outcome]. now rewrite (on_error_request e Hcls).
  - rewrite Hget, Hstatus. cbn [trace outcome]. now rewrite (on_error_request e Hcls).
Qed.

(** The guard around [Path(filename)], which CPython does not trigger for
    a [str]: were [Path] to reject the name with [OSError] or [ValueError],
    [save] would return [None] without any action if skipping is enabled,
    and otherwise go on to download under a fallback name, of the next draw
    (the first one, unless the initial name is a fallback name already); an
    exception of any other class would end [save] as it is, again without
    any action. *)
Lemma save_invalid_filename_policy (self : Image) (path : pystr)
    (filename : option pystr) (cookies : option (gmap pystr pystr)) (e : pyexn) :
  new_Path (initial_filename self filename) = Raise e ->
  let draw := next_draw draw1 draw2 (drew_fallback unquoted_path self filename) in
  if issubclass (exc_type e) OSError || issubclass (exc_type e) ValueError then
    save self path filename cookies true = IO [] (Ok None) /\
    save self path filename cookies false =
      IO (trace (download self path (fallback_filename draw) cookies))
         match outcome (download self path (fallback_filename draw) cookies) with
         | Ok dest => Ok (Some dest)
         | Raise e' => Raise e'
         end
  else
    forall skip, save self path filename cookies skip = IO [] (Raise e).
Proof.
  intros Hpath draw. unfold Images.save, Images.validate_filename. cbv zeta.
  rewrite Hpath. fold draw.
  destruct (issubclass (exc_type e) OSError || issubclass (exc_type e) ValueError).
  - split; [reflexivity|].
    unfold mbind, io_bind, lift, mret, io_ret. cbn [trace outcome app].
    destruct (outcome (download _ _ _ _)); cbn [trace outcome app];
      now rewrite ?app_nil_r.
  - intros skip. reflexivity.
Qed.

(** X13. A file name the caller gives (not empty, at most 255 characters)
    is used as it is: the URL plays no part in it, and it is not passed
    through the replacement of unsafe characters. *)
Theorem save_explicit_filename_verbatim (self : Image) (path f : pystr)
    (cookies : option (gmap pystr pystr)) (skip : bool) :
  f <> [] ->
  (len f <= max_len)%Z ->
  new_Path f = Ok () ->
  save self path (Some f) cookies skip =
    IO (trace (download self path f cookies))
       match outcome (download self path f cookies) with
       | Ok dest => Ok (Some dest)
       | Raise e => Raise e
       end.
Proof.
  intros Hne Hlen Hpath.
  assert (initial_filename self (Some f) = f) as Hinit
    by (destruct f; [contradiction | reflexivity]).
  rewrite save_download by now rewrite Hinit.
  now rewrite Hinit, (truncate_filename_short f Hlen).
Qed.

Lemma str_of_int_four_digits (draw : Z) :
  (1000 <= draw <= 9999)%Z -> length (str_of_int draw) = 4%nat.
Proof.
  intros Hrange.
  assert (Forall (fun z => length (str_of_int z) = 4%nat) (seqZ 1000 9000)) as Hall.
  { apply (bool_decide_unpack _). vm_compute. exact I. }
  rewrite Forall_forall in Hall. apply Hall. apply elem_of_seqZ. lia.
Qed.

(** X14. When no name is given (or an empty one) and the URL yields none,
    because parsing it raises or because the basename of its path is empty
    (a path ending in a slash), the name is [image_NNNN.jpg] with the four
    digits of the first draw: fourteen characters, which the length check
    leaves alone. *)
Theorem save_fallback_filename (self : Image) (filename : option pystr) :
  filename = None \/ filename = Some [] ->
  (exists e, unquoted_path (url self) = Raise e) \/
  (exists p, unquoted_path (url self) = Ok p /\ OsPath.basename p = []) ->
  (1000 <= draw1 <= 9999)%Z ->
  let name := initial_filename self filename in
  name = lit "image_" ++ str_of_int draw1 ++ lit ".jpg" /\
  length (str_of_int draw1) = 4%nat /\
  len name = 14%Z /\
  truncate_filename name = name.
Proof.
  intros Hnone Hurl Hdraw name.
  assert (name = fallback_filename draw1) as Hname.
  { subst name. unfold Images.initial_filename.
    assert (derive_filename unquoted_path draw1 self = fallback_filename draw1) as Hd.
    { unfold Images.derive_filename.
      destruct Hurl as [[e ->] | (p & -> & ->)]; reflexivity. }
    destruct Hnone as [-> | ->]; exact Hd. }
  pose proof (str_of_int_four_digits draw1 Hdraw) as Hfour.
  assert (len name = 14%Z) as Hlen.
  { rewrite Hname. unfold fallback_filename, len.
    rewrite !length_app, Hfour. reflexivity. }
  repeat split; auto.
  apply truncate_filename_short. rewrite Hlen. unfold max_len. lia.
Qed.

End SaveMore.

(** ** images.py: more on [GeneratedImage] and on the texts of an image *)

Section GeneratedImageMore.

Import Images.

Variable unquoted_path : pystr -> result pystr.
Variable new_Path : pystr -> result unit.
Variable http_get : session -> pystr -> result response.
Variable raise_for_status : response -> result unit.
Variable fs_mkdir : pystr -> result unit.
Variable fs_write : pystr -> pystr -> list N -> result unit.
Variable fs_resolve : pystr -> pystr -> pystr.
Variable draw1 draw2 : Z.
Variable str_lower : pystr -> pystr.
Variable now_stamp : pystr.

Local Abbreviation download :=
  (Images.download http_get raise_for_status fs_mkdir fs_write fs_resolve).
Local Abbreviation default_filename := (Images.default_filename str_lower now_stamp).
Local Abbreviation generated_save :=
  (Images.generated_save unquoted_path new_Path http_get raise_for_status
     fs_mkdir fs_write fs_resolve draw1 draw2 str_lower now_stamp).

Lemma default_filename_length (g : GeneratedImage) :
  (len now_stamp + 5 <= len (default_filename g) <= len now_stamp + 15)%Z.
Proof.
  unfold Images.default_filename, len.
  destruct (contains _ _); rewrite !length_app, length_take;
    change (length (lit "_")) with 1%nat;
    change (length (lit ".jpg")) with 4%nat;
    change (length (lit ".png")) with 4%nat; lia.
Qed.

(** X15. Without a [filename] keyword, a generated image is downloaded
    with the cookies of the image and saved under the time stamp, an
    underscore, the first ten characters of what follows the last slash of
    the URL, and [.jpg] or [.png]: this name is taken as it is (a time stamp
    of up to 240 characters leaves it within the limit), so the characters
    it takes from the URL are not replaced. *)
Theorem generated_save_default_name (g : GeneratedImage) (kw : kwargs) :
  kw_filename kw = None ->
  kw_cookies kw = None ->
  kw_other kw = [] ->
  (len now_stamp <= 240)%Z ->
  new_Path (default_filename g) = Ok () ->
  let dir := default (lit "downloaded_images") (kw_path kw) in
  generated_save g kw =
    IO (trace (download (image g) dir (default_filename g) (Some (cookies g))))
       match outcome (download (image g) dir (default_filename g)
                        (Some (cookies g))) with
       | Ok dest => Ok (Some dest)
       | Raise e => Raise e
       end.
Proof.
  intros Hname Hcookies Hother Hstamp Hpath dir.
  unfold Images.generated_save. rewrite Hname, Hcookies, Hother.
  pose proof (default_filename_length g) as Hlen.
  assert (initial_filename unquoted_path draw1 (image g) (Some (default_filename g))
          = default_filename g) as Hinit.
  { destruct (default_filename g) as [|c f] eqn:Hd; [|reflexivity].
    unfold len in Hlen. simpl in Hlen. lia. }
  rewrite (save_download unquoted_path new_Path http_get raise_for_status fs_mkdir
             fs_write fs_resolve draw1 draw2) by now rewrite Hinit.
  rewrite Hinit, truncate_filename_short; [reflexivity|]. unfold max_len. lia.
Qed.

Lemma as_str_dict_fmap (d : gmap pystr pystr) :
  as_str_dict (PyDict (PyStr <$> d)) = Some d.
Proof.
  unfold as_str_dict.
  rewrite (proj2 (forallb_forall _ _)).
  - now rewrite omap_str_of_pyval_fmap.
  - intros [k v] Hin. apply list_elem_of_In, elem_of_map_to_list in Hin.
    rewrite lookup_fmap in Hin. simpl.
    destruct (d !! k); [|discriminate]. injection Hin as <-.
    apply bool_decide_eq_true. eauto.
Qed.

(** X16. Every non-empty dictionary of strings is accepted as the
    [cookies] of a [GeneratedImage], and the image constructed carries
    exactly that dictionary. *)
Theorem new_GeneratedImage_accepts (img : Image) (d : gmap pystr pystr) :
  d <> ∅ ->
  new_GeneratedImage img (PyDict (PyStr <$> d))
  = Ok {| image := img; cookies := d |}.
Proof.
  intros Hne. unfold new_GeneratedImage. rewrite as_str_dict_fmap.
  unfold validate_cookies, is_dict.
  destruct (py_truthy (PyDict (PyStr <$> d))) eqn:Htruthy.
  - cbv [negb orb]. now rewrite as_str_dict_fmap.
  - apply py_truthy_dict in Htruthy. now apply fmap_empty_inv in Htruthy.
Qed.

End GeneratedImageMore.

Section ImageTexts.

Import Images.

Lemma len_slice_to_le {A} (l : list A) (k : Z) :
  (0 <= k)%Z -> (len (slice_to l k) <= k)%Z.
Proof.
  intros Hk. unfold slice_to, len.
  rewrite (proj2 (Z.leb_le 0 k) Hk), length_take. lia.
Qed.

Lemma len_slice_from_last {A} (l : list A) (k : Z) :
  (0 < k <= len l)%Z -> len (slice_from l (- k)) = k.
Proof.
  intros Hk. unfold slice_from, len in *.
  rewrite (proj2 (Z.leb_gt 0 (- k))) by lia. rewrite length_drop. lia.
Qed.

(** X17. The texts of [Image.__repr__] are bounded whatever the image: the
    URL shown has at most 50 characters (exactly 43 when it was cut: the
    first 20, an ellipsis, the last 20), the description shown at most 33,
    and the whole text at most 114 characters more than the title. *)
Theorem repr_is_bounded (self : Image) :
  (len (short_url self) <= 50)%Z /\
  (len (short_alt self) <= 33)%Z /\
  (len (__repr__ self) <= len (title self) + 114)%Z /\
  ((50 < len (url self))%Z ->
   short_url self
   = take 20 (url self) ++ lit "..." ++ drop (length (url self) - 20) (url self)
   /\ len (short_url self) = 43%Z).
Proof.
  assert ((50 < len (url self))%Z ->
          short_url self
          = take 20 (url self) ++ lit "..." ++ drop (length (url self) - 20) (url self)
          /\ len (short_url self) = 43%Z) as Hcut.
  { intros Hlong. unfold short_url.
    rewrite (proj2 (Z.leb_gt _ _)) by lia.
    change (slice_to (url self) 20) with (take 20 (url self)).
    change (slice_from (url self) (-20))
      with (drop (Z.to_nat (Z.of_nat (length (url self)) + -20)) (url self)).
    replace (Z.to_nat (Z.of_nat (length (url self)) + -20))
      with (length (url self) - 20)%nat by lia.
    split; [reflexivity|]. unfold len in *.
    rewrite !length_app, length_take, length_drop.
    change (length (lit "...")) with 3%nat. lia. }
  assert (len (short_url self) <= 50)%Z as Hurl.
  { destruct (Z.le_gt_cases (len (url self)) 50) as [Hshort|Hlong].
    - unfold short_url. now rewrite (proj2 (Z.leb_le _ _) Hshort).
    - destruct (Hcut ltac:(lia)) as [_ ->]. lia. }
  assert (len (short_alt self) <= 33)%Z as Halt.
  { unfold short_alt. destruct (30 <? len (alt self))%Z eqn:Hlong.
    - pose proof (len_slice_to_le (alt self) 30 ltac:(lia)) as Hs.
      unfold len in *. rewrite length_app.
      change (length (lit "...")) with 3%nat. lia.
    - apply Z.ltb_ge in Hlong. lia. }
  split; [exact Hurl|]. split; [exact Halt|]. split; [|exact Hcut].
  unfold __repr__, len in *. rewrite !length_app.
  change (length (lit "Image(title='")) with 13%nat.
  change (length (lit "', url='")) with 8%nat.
  change (length (lit "', alt='")) with 8%nat.
  change (length (lit "')")) with 2%nat. lia.
Qed.

(** X18. Replacing the unsafe characters keeps the length of the name and
    changes nothing when applied a second time. *)
Theorem sanitize_idempotent (s : pystr) :
  length (sanitize s) = length s /\ sanitize (sanitize s) = sanitize s.
Proof.
  unfold sanitize. split; [apply length_fmap|].
  rewrite <- list_fmap_compose. apply list_fmap_ext. intros i c _. simpl.
  destruct (decide (c ∈ unsafe_class)) as [Hin|Hout].
  - rewrite decide_False; [reflexivity|].
    apply (bool_decide_unpack _). vm_compute. exact I.
  - now rewrite decide_False.
Qed.

End ImageTexts.

(** ** The further properties at concrete inputs *)

Lemma load_cookies_rejects_non_list_witness :
  exists e,
    Utils.load_cookies ascii_upper Demo.open_ DemoMore.load_object (lit "cookies.json")
    = Raise e /\ e <> Utils.required_cookies_error.
Proof.
  destruct (load_cookies_rejects_non_list ascii_upper Demo.open_ DemoMore.load_object
              (lit "cookies.json") (lit "(exported cookies)")
              (Demo.cookie "__Secure-1PSID" "g.a000") eq_refl eq_refl)
    as (e & He & Hiff & _).
  - intros items. discriminate.
  - exists e. split; [exact He|].
    intros Hreq. apply Hiff in Hreq as [Hs | Hd]; [discriminate|].
    apply (f_equal (fun v => match v with
                             | PyDict d => d !! lit "name"
                             | _ => None
                             end)) in Hd.
    now vm_compute in Hd.
Defined.

Lemma load_cookies_ignores_what_follows_witness :
  Utils.load_cookies ascii_upper Demo.open_
    (Demo.load (Demo.exported ++ DemoMore.trailing)) (lit "cookies.json")
  = Ok (PyStr (lit "g.a000"), PyStr (lit "sidts-xyz")).
Proof.
  assert (exists cs, Utils.cookie_list Demo.exported = Some cs /\
                     Utils.stop_value ascii_upper Utils.PSID cs = Some (PyStr (lit "g.a000")) /\
                     Utils.stop_value ascii_upper Utils.PSIDTS cs = Some (PyStr (lit "sidts-xyz")))
    as (cs & Hcs & H1 & H2).
  { eexists. split; [vm_compute; reflexivity|]. split; vm_compute; reflexivity. }
  apply stop_value_earliest in H1, H2.
  exact (load_cookies_ignores_what_follows ascii_upper Demo.open_
           (Demo.load (Demo.exported ++ DemoMore.trailing)) (lit "cookies.json")
           (lit "(exported cookies)") Demo.exported DemoMore.trailing cs
           (PyStr (lit "g.a000")) (PyStr (lit "sidts-xyz"))
           eq_refl eq_refl Hcs H1 H2).
Defined.

Lemma load_cookies_malformed_entry_first_witness :
  Utils.load_cookies ascii_upper Demo.open_
    (Demo.load ([Demo.cookie "NID" "511=abc"] ++ PyInt 7 :: Demo.exported))
    (lit "cookies.json")
  = Raise (Utils.unexpected (Exn TypeError (lit "'int' object is not subscriptable"))).
Proof.
  assert (exists cs, Utils.cookie_list [Demo.cookie "NID" "511=abc"] = Some cs /\
                     Utils.stop_value ascii_upper Utils.PSID cs = None)
    as (cs & Hcs & Hnone).
  { eexists. split; vm_compute; reflexivity. }
  pose proof (proj1 (stop_value_None ascii_upper _ _) Hnone) as Hnone'.
  exact (proj1 (load_cookies_malformed_entry_first ascii_upper Demo.open_
                  (Demo.load ([Demo.cookie "NID" "511=abc"] ++ PyInt 7 :: Demo.exported))
                  (lit "cookies.json") (lit "(exported cookies)")
                  [Demo.cookie "NID" "511=abc"] Demo.exported (PyInt 7) cs
                  (Exn TypeError (lit "'int' object is not subscriptable"))
                  eq_refl eq_refl Hcs Hnone' eq_refl)).
Defined.

Lemma load_cookies_order_irrelevant_witness :
  Utils.load_cookies ascii_upper DemoMore.open_two DemoMore.load_two (lit "a.json")
  = Ok (PyStr (lit "g.a000"), PyStr (lit "sidts-xyz")) /\
  Utils.load_cookies ascii_upper DemoMore.open_two DemoMore.load_two (lit "b.json")
  = Ok (PyStr (lit "g.a000"), PyStr (lit "sidts-xyz")).
Proof.
  eapply (load_cookies_order_irrelevant ascii_upper DemoMore.open_two DemoMore.load_two
            (lit "a.json") (lit "A") (lit "b.json") (lit "B")
            Demo.exported (rev Demo.exported)).
  - reflexivity.
  - reflexivity.
  - reflexivity.
  - reflexivity.
  - apply Permutation_rev.
  - vm_compute. reflexivity.
  - exists (lit "__secure-1psid"). split; [right; left | reflexivity].
  - vm_compute. discriminate.
  - intros c Hc Hn.
    repeat (apply elem_of_cons in Hc as [-> | Hc];
            [first [reflexivity | now vm_compute in Hn]|]).
    inversion Hc.
  - exists (lit "__Secure-1PSIDTS"). split; [right; right; left | reflexivity].
  - vm_compute. discriminate.
  - intros c Hc Hn.
    repeat (apply elem_of_cons in Hc as [-> | Hc];
            [first [reflexivity | now vm_compute in Hn]|]).
    inversion Hc.
Defined.

Lemma upload_file_single_post_witness :
  Utils.upload_file DemoMore.is_file (fun _ => Ok []) DemoMore.http_post
    DemoMore.status_not_found (Utils.Bytes (lit "PNG...")) None (lit "chrome110")
  = IO [HttpPost (Session None None (lit "chrome110")
                    (Some (Headers.value Headers.UPLOAD)))
          (Endpoint.value Endpoint.UPLOAD) (lit "PNG...")]
       (Raise DemoMore.not_found) /\
  Utils.upload_file DemoMore.is_file (fun _ => Ok []) DemoMore.http_post
    DemoMore.status_without_response (Utils.Bytes (lit "PNG...")) None (lit "chrome110")
  = IO [HttpPost (Session None None (lit "chrome110")
                    (Some (Headers.value Headers.UPLOAD)))
          (Endpoint.value Endpoint.UPLOAD) (lit "PNG...")]
       (Raise (Exn AttributeError
                 (lit "'NoneType' object has no attribute 'status_code'"))).
Proof.
  pose proof (upload_file_single_post DemoMore.is_file (fun _ => Ok []) DemoMore.http_post
                DemoMore.status_not_found (Utils.Bytes (lit "PNG...")) (lit "PNG...")
                None (lit "chrome110") (or_introl eq_refl)) as (Htrace & _ & Hraise & _).
  pose proof (upload_file_single_post DemoMore.is_file (fun _ => Ok []) DemoMore.http_post
                DemoMore.status_without_response (Utils.Bytes (lit "PNG...")) (lit "PNG...")
                None (lit "chrome110") (or_introl eq_refl)) as (Htrace' & _ & Hraise' & _).
  destruct (Hraise DemoMore.not_found) as [Hout _].
  { right. eexists. split; reflexivity. }
  destruct (Hraise' (Exn HTTPError (lit "502 Server Error: Bad Gateway"))) as [Hout' _].
  { right. eexists. split; reflexivity. }
  assert (forall (m : io pystr) t o, trace m = t -> outcome m = o -> m = IO t o) as Hio
    by (intros [] ? ? <- <-; reflexivity).
  split; apply Hio; assumption.
Defined.

Lemma save_writes_response_body_witness :
  DemoImages.save_default (lit "https://example.com/files/a.png")
  = IO [HttpGet (Images.client_of DemoMore.png None) (lit "https://example.com/files/a.png");
        Mkdir (lit "downloaded_images");
        WriteBytes (lit "downloaded_images") (lit "a.png") []]
       (Ok (Some (lit "/home/user/downloaded_images/a.png"))).
Proof.
  exact (proj1 (save_writes_response_body DemoImages.unquoted_path DemoImages.new_Path
                  DemoImages.http_get DemoImages.raise_for_status DemoImages.fs_mkdir
                  DemoImages.fs_write DemoImages.fs_resolve 4242 1717 DemoMore.png
                  (lit "downloaded_images") None None true (Response [] [])
                  eq_refl eq_refl eq_refl eq_refl)).
Defined.

Lemma save_mkdir_failure_is_masked_witness :
  Images.save DemoImages.unquoted_path DemoImages.new_Path DemoImages.http_get
    DemoImages.raise_for_status DemoMore.mkdir_denied DemoImages.fs_write
    DemoImages.fs_resolve 4242 1717 DemoMore.png (lit "/root/images") None None true
  = IO [HttpGet (Images.client_of DemoMore.png None) (lit "https://example.com/files/a.png");
        Mkdir (lit "/root/images")]
       (Raise (Exn UnboundLocalError
                 (lit "cannot access local variable 'dest' where it is not associated with a value"))).
Proof.
  exact (save_mkdir_failure_is_masked DemoImages.unquoted_path DemoImages.new_Path
           DemoImages.http_get DemoImages.raise_for_status DemoMore.mkdir_denied
           DemoImages.fs_write DemoImages.fs_resolve 4242 1717 DemoMore.png
           (lit "/root/images") None None true (Response [] [])
           (Exn PermissionError (lit "[Errno 13] Permission denied"))
           eq_refl eq_refl eq_refl eq_refl eq_refl eq_refl).
Defined.

Lemma save_request_failure_writes_nothing_witness :
  Images.save DemoImages.unquoted_path DemoImages.new_Path DemoMore.get_timeout
    DemoImages.raise_for_status DemoImages.fs_mkdir DemoImages.fs_write
    DemoImages.fs_resolve 4242 1717 DemoMore.png (lit "downloaded_images") None None true
  = IO [HttpGet (Images.client_of DemoMore.png None) (lit "https://example.com/files/a.png")]
       (Raise (Exn Timeout (lit "Operation timed out"))).
Proof.
  exact (proj1 (proj2 (save_request_failure_writes_nothing DemoImages.unquoted_path
                  DemoImages.new_Path DemoMore.get_timeout DemoImages.raise_for_status
                  DemoImages.fs_mkdir DemoImages.fs_write DemoImages.fs_resolve 4242 1717
                  DemoMore.png (lit "downloaded_images") None None true
                  (Exn Timeout (lit "Operation timed out"))
                  eq_refl (or_introl eq_refl) eq_refl))
           (or_introl eq_refl)).
Defined.

Lemma save_explicit_filename_verbatim_witness :
  trace (Images.save DemoImages.unquoted_path DemoImages.new_Path DemoImages.http_get
           DemoImages.raise_for_status DemoImages.fs_mkdir DemoImages.fs_write
           DemoImages.fs_resolve 4242 1717 DemoMore.png (lit "downloaded_images")
           (Some (lit "what?.png")) None true)
  = [HttpGet (Images.client_of DemoMore.png None) (lit "https://example.com/files/a.png");
     Mkdir (lit "downloaded_images");
     WriteBytes (lit "downloaded_images") (lit "what?.png") []].
Proof.
  rewrite (save_explicit_filename_verbatim DemoImages.unquoted_path DemoImages.new_Path
             DemoImages.http_get DemoImages.raise_for_status DemoImages.fs_mkdir
             DemoImages.fs_write DemoImages.fs_resolve 4242 1717 DemoMore.png
             (lit "downloaded_images") (lit "what?.png") None true).
  - reflexivity.
  - vm_compute. discriminate.
  - vm_compute. discriminate.
  - reflexivity.
Defined.

Lemma save_fallback_filename_witness :
  Images.initial_filename DemoImages.unquoted_path 4242
    (DemoImages.image_at (lit "https://example.com/gallery/")) None
  = lit "image_4242.jpg".
Proof.
  refine (proj1 (save_fallback_filename DemoImages.unquoted_path 4242
                   (DemoImages.image_at (lit "https://example.com/gallery/")) None
                   (or_introl eq_refl) _ _)).
  - right. exists (lit "/gallery/"). split; reflexivity.
  - lia.
Defined.

Lemma save_truncates_when_extension_fits_witness :
  exists stem,
    repeat 97%N 250 ++ lit ".png" = stem ++ lit ".png" /\
    len (repeat 97%N 250 ++ lit ".png") = 254%Z.
Proof.
  destruct (save_truncates_when_extension_fits DemoImages.unquoted_path
              DemoImages.new_Path DemoImages.http_get DemoImages.raise_for_status
              DemoImages.fs_mkdir DemoImages.fs_write DemoImages.fs_resolve 4242 1717
              (DemoImages.image_at DemoImages.long_name_url) (lit "downloaded_images")
              None None true (lit "downloaded_images")
              (repeat 97%N 250 ++ lit ".png") []) as [Hlen [stem Hstem]].
  - reflexivity.
  - vm_compute. reflexivity.
  - vm_compute. discriminate.
  - apply (list_elem_of_lookup_2 _ 2). vm_compute. reflexivity.
  - exists stem. split; [|exact Hlen].
    rewrite Hstem. reflexivity.
Defined.

Lemma save_derived_name_clean_witness :
  trace (DemoImages.save_default (lit "https://example.com/files/a<b>.png")) !! 2%nat
  = Some (WriteBytes (lit "downloaded_images") (lit "a_b_.png") []) /\
  95%N ∉ Images.unsafe_class.
Proof.
  split; [vm_compute; reflexivity|].
  apply (save_derived_name_clean DemoImages.unquoted_path DemoImages.new_Path
           DemoImages.http_get DemoImages.raise_for_status DemoImages.fs_mkdir
           DemoImages.fs_write DemoImages.fs_resolve 4242 1717
           (DemoImages.image_at (lit "https://example.com/files/a<b>.png"))
           (lit "downloaded_images") (lit "/files/a<b>.png") None true
           (lit "downloaded_images") (lit "a_b_.png") []).
  - reflexivity.
  - vm_compute. discriminate.
  - reflexivity.
  - apply (list_elem_of_lookup_2 _ 2). vm_compute. reflexivity.
  - apply (list_elem_of_lookup_2 _ 1). reflexivity.
Defined.

Lemma generated_save_default_name_witness :
  trace (DemoImages.generated_save DemoImages.generated DemoImages.no_kwargs)
  = [HttpGet (Session (Some DemoImages.client_cookies) None (lit "chrome110") None)
       (lit "https://example.com/g/1.png");
     Mkdir (lit "downloaded_images");
     WriteBytes (lit "downloaded_images") (lit "20250101120000_1.png.png") []].
Proof.
  unfold DemoImages.generated_save.
  rewrite (generated_save_default_name DemoImages.unquoted_path DemoImages.new_Path
             DemoImages.http_get DemoImages.raise_for_status DemoImages.fs_mkdir
             DemoImages.fs_write DemoImages.fs_resolve 4242 1717 ascii_lower
             (lit "20250101120000") DemoImages.generated DemoImages.no_kwargs).
  - vm_compute. reflexivity.
  - reflexivity.
  - reflexivity.
  - reflexivity.
  - vm_compute. discriminate.
  - reflexivity.
Defined.

Lemma new_GeneratedImage_accepts_witness :
  Images.new_GeneratedImage (DemoImages.image_at (lit "https://example.com/g/1.png"))
    (PyDict (PyStr <$> DemoImages.client_cookies))
  = Ok DemoImages.generated.
Proof.
  apply (new_GeneratedImage_accepts
           (DemoImages.image_at (lit "https://example.com/g/1.png"))
           DemoImages.client_cookies).
  intros Hempty. apply (f_equal (fun d => d !! lit "__Secure-1PSID")) in Hempty.
  now vm_compute in Hempty.
Defined.
